(** * fio-qa: result normalisation, aggregation and report synthesis

    A shallow embedding of [main.go].  Go's [float64] is the kernel's binary64
    ([PrimFloat.float]), [time.Duration] and [int64] are [Z], [map[string]float64]
    is [gmap string float], a nilable pointer or [error] is an [option], and the
    file system touched by a run is threaded explicitly. *)

From Stdlib Require Import ZArith List String Ascii Bool Lia.
From Stdlib Require Import PrimFloat SpecFloat FloatAxioms DecimalString.
From stdpp Require Import base option gmap strings.

Import ListNotations.
Local Open Scope string_scope.
Local Open Scope Z_scope.

(** ** Raw measurement document (the structs decoded from fio's JSON) *)

Module FioLatNs.
Record t := mk
  { Min : float; Max : float; Mean : float; Stddev : float;
    Percentile : gmap string float }.
Definition zero : t := mk 0 0 0 0 ∅.
End FioLatNs.

Module FioClat.
Record t := mk
  { Min : float; Max : float; Mean : float; Stddev : float;
    Percentile : gmap string float }.
Definition zero : t := mk 0 0 0 0 ∅.
End FioClat.

Module FioIO.
Record t := mk
  { IOPS : float;
    BWBytes : float;
    BWMean : float;
    BWMin : float;
    BWMax : float;
    BWDev : float;
    IOKBytes : float;
    Runtime : float;
    Slat : FioLatNs.t;
    Clat : FioClat.t;
    LatNs : FioLatNs.t;
    IOPSMin : float;
    IOPSMax : float;
    IOPSMean : float;
    IOPSStddev : float }.
Definition zero : t :=
  mk 0 0 0 0 0 0 0 0 FioLatNs.zero FioClat.zero FioLatNs.zero 0 0 0 0.
End FioIO.

Module FioSync.
Record t := mk { LatNs : FioLatNs.t }.
Definition zero : t := mk FioLatNs.zero.
End FioSync.

Module FioJobResult.
Record t := mk
  { JobName : string;
    Read : FioIO.t;
    Write : FioIO.t;
    Sync : FioSync.t;
    UsrCPU : float;
    SysCPU : float;
    Ctx : Z;
    MajF : Z;
    MinF : Z;
    IODepths : gmap string float;
    LatBins : gmap string float }.
Definition zero : t :=
  mk "" FioIO.zero FioIO.zero FioSync.zero 0 0 0 0 0 ∅ ∅.
End FioJobResult.

Module FioDiskUtil.
Record t := mk
  { Name : string;
    ReadIOs : Z;
    WriteIOs : Z;
    ReadSectors : Z;
    WriteSectors : Z;
    ReadMerges : Z;
    WriteMerges : Z;
    ReadTicks : Z;
    WriteTicks : Z;
    InQueue : Z;
    Util : float }.
End FioDiskUtil.

Module FioOutput.
Record t := mk
  { FioVersion : string;
    Jobs : list FioJobResult.t;
    DiskUtil : list FioDiskUtil.t }.
End FioOutput.

(** The part of a test definition that [runTest] itself reads. *)
Module FioTest.
Record t := mk { Name : string; Description : string }.
End FioTest.

(** ** The canonical per-test result *)

Module TestResult.
Record t := mk
  { TestName : string;
    Description : string;
    ReadIOPS : float;
    WriteIOPS : float;
    TotalIOPS : float;
    ReadBWMBps : float;
    WriteBWMBps : float;
    TotalBWMBps : float;
    ReadLatencyUs : float;
    WriteLatencyUs : float;
    AvgLatencyUs : float;
    Duration : Z;
    Status : string;
    Error : option string;
    FioJob : option FioJobResult.t;
    DiskUtil : list FioDiskUtil.t }.

(** Go's zero value of the struct ([var r TestResult]). *)
Definition zero : t := mk "" "" 0 0 0 0 0 0 0 0 0 0 "" None None [].
End TestResult.

Definition PASSED : string := "PASSED".
Definition FAILED : string := "FAILED".

(** ** Rendered text and JSON values

    Strings produced by library formatters are kept as the formatter applied to
    its argument, so that the value behind every rendered cell stays visible. *)

Inductive arg :=
| AFloat (x : float)
| AInt (z : Z)
| AStr (s : string)
| AParseFloat (s : string).          (* [parseFloat(s)] *)

Inductive text :=
| Lit (s : string)
| Sprintf (format : string) (a : arg)  (* [fmt.Sprintf(format, a)] *)
| Itoa (z : Z)                         (* [strconv.Itoa(z)] *)
| DurationString (d : Z)               (* [d.String()] *)
| DurationRoundString (d : Z).         (* [d.Round(time.Second).String()] *)

(** A JSON value as [encoding/json] writes it; an object keeps its members in
    the order of the struct's fields. *)
#[local] Set Warnings "-register-all".
Inductive json :=
| JNum (x : float)
| JInt (z : Z)
| JString (t : text)
| JArray (l : list json)
| JObject (members : list (string * json)).
#[local] Set Warnings "register-all".

(** ** The world a run touches

    A file is represented by what [json.Unmarshal] makes of its bytes (a
    decoding error, or the decoded fio document), or by the report written to
    it. *)

Inductive fileData :=
| Malformed (msg : string)
| FioDoc (o : FioOutput.t)
| ReportDoc (j : json).

Definition FS := gmap string fileData.

(** What one invocation of the external tool did: the error of
    [cmd.CombinedOutput] (if any), the captured output, and what it left at the
    path given by [--output] ([None]: it wrote nothing there). *)
Record FioRun := mkFioRun
  { run_err : option string;
    run_output : string;
    run_written : option fileData }.

(** The clock readings of one run: [time.Now().Unix()] for the file name and
    [time.Since(start)] for the duration. *)
Record Clock := mkClock { unix_now : Z; elapsed : Z }.

Definition Z_to_string (z : Z) : string := NilZero.string_of_int (Z.to_int z).

Definition newline : string := String (ascii_of_nat 10) EmptyString.

(** [fmt.Sprintf("/tmp/fio_output_%s_%d.json", test.Name, time.Now().Unix())] *)
Definition tmpFileName (name : string) (now : Z) : string :=
  "/tmp/fio_output_" ++ name ++ "_" ++ Z_to_string now ++ ".json".

(** [parseFioOutput]: read the file, then decode it. *)
Definition parseFioOutput (fs : FS) (filename : string) : FioOutput.t + string :=
  match fs !! filename with
  | None => inr ("open " ++ filename ++ ": no such file or directory")
  | Some (Malformed msg) => inr msg
  | Some (FioDoc o) => inl o
  | Some (ReportDoc _) => inr "json: cannot unmarshal report into fio output"
  end.

(** The effect of running the tool on the file system. *)
Definition exec_fio (run : FioRun) (tmpFile : string) (fs : FS) : FS :=
  match run_written run with
  | Some d => <[tmpFile := d]> fs
  | None => fs
  end.

(** [os.Remove]; its error is ignored by the caller. *)
Definition os_Remove (path : string) (fs : FS) : FS := delete path fs.

Section Normalize.
Local Open Scope float_scope.

(** The "Extract metrics" block of [runTest], for the selected job. *)
Definition extractMetrics (result : TestResult.t) (job : FioJobResult.t)
    (diskUtil : list FioDiskUtil.t) : TestResult.t :=
  let ReadIOPS := FioIO.IOPS (FioJobResult.Read job) in
  let WriteIOPS := FioIO.IOPS (FioJobResult.Write job) in
  let TotalIOPS := ReadIOPS + WriteIOPS in
  let ReadBWMBps := FioIO.BWBytes (FioJobResult.Read job) / 1024 / 1024 in
  let WriteBWMBps := FioIO.BWBytes (FioJobResult.Write job) / 1024 / 1024 in
  let TotalBWMBps := ReadBWMBps + WriteBWMBps in
  let ReadLatencyUs := FioLatNs.Mean (FioIO.LatNs (FioJobResult.Read job)) / 1000 in
  let WriteLatencyUs := FioLatNs.Mean (FioIO.LatNs (FioJobResult.Write job)) / 1000 in
  let AvgLatencyUs :=
    if (0 <? ReadIOPS) && (0 <? WriteIOPS) then (ReadLatencyUs + WriteLatencyUs) / 2
    else if 0 <? ReadIOPS then ReadLatencyUs
    else WriteLatencyUs in
  {| TestResult.TestName := TestResult.TestName result;
     TestResult.Description := TestResult.Description result;
     TestResult.ReadIOPS := ReadIOPS;
     TestResult.WriteIOPS := WriteIOPS;
     TestResult.TotalIOPS := TotalIOPS;
     TestResult.ReadBWMBps := ReadBWMBps;
     TestResult.WriteBWMBps := WriteBWMBps;
     TestResult.TotalBWMBps := TotalBWMBps;
     TestResult.ReadLatencyUs := ReadLatencyUs;
     TestResult.WriteLatencyUs := WriteLatencyUs;
     TestResult.AvgLatencyUs := AvgLatencyUs;
     TestResult.Duration := TestResult.Duration result;
     TestResult.Status := PASSED;
     TestResult.Error := TestResult.Error result;
     TestResult.FioJob := Some job;
     TestResult.DiskUtil := diskUtil |}.
End Normalize.

Definition with_Error (result : TestResult.t) (e : string) : TestResult.t :=
  {| TestResult.TestName := TestResult.TestName result;
     TestResult.Description := TestResult.Description result;
     TestResult.ReadIOPS := TestResult.ReadIOPS result;
     TestResult.WriteIOPS := TestResult.WriteIOPS result;
     TestResult.TotalIOPS := TestResult.TotalIOPS result;
     TestResult.ReadBWMBps := TestResult.ReadBWMBps result;
     TestResult.WriteBWMBps := TestResult.WriteBWMBps result;
     TestResult.TotalBWMBps := TestResult.TotalBWMBps result;
     TestResult.ReadLatencyUs := TestResult.ReadLatencyUs result;
     TestResult.WriteLatencyUs := TestResult.WriteLatencyUs result;
     TestResult.AvgLatencyUs := TestResult.AvgLatencyUs result;
     TestResult.Duration := TestResult.Duration result;
     TestResult.Status := TestResult.Status result;
     TestResult.Error := Some e;
     TestResult.FioJob := TestResult.FioJob result;
     TestResult.DiskUtil := TestResult.DiskUtil result |}.

(** The result as [runTest] holds it once the command has returned: the struct
    literal it starts from (every metric at Go's zero value) with the measured
    duration. *)
Definition resultInit (test : FioTest.t) (d : Z) : TestResult.t :=
  {| TestResult.TestName := FioTest.Name test;
     TestResult.Description := FioTest.Description test;
     TestResult.ReadIOPS := 0; TestResult.WriteIOPS := 0; TestResult.TotalIOPS := 0;
     TestResult.ReadBWMBps := 0; TestResult.WriteBWMBps := 0;
     TestResult.TotalBWMBps := 0;
     TestResult.ReadLatencyUs := 0; TestResult.WriteLatencyUs := 0;
     TestResult.AvgLatencyUs := 0;
     TestResult.Duration := d;
     TestResult.Status := FAILED;
     TestResult.Error := None;
     TestResult.FioJob := None;
     TestResult.DiskUtil := [] |}.

(** [runTest]: the result, and the file system it leaves behind. *)
Definition runTest (clk : Clock) (run : FioRun) (test : FioTest.t) (fs : FS)
    : TestResult.t * FS :=
  let result := resultInit test (elapsed clk) in
  let tmpFile := tmpFileName (FioTest.Name test) (unix_now clk) in
  let fs := exec_fio run tmpFile fs in
  match run_err run with
  | Some err =>
      (with_Error result
         ("fio command failed: " ++ err ++ newline ++ "Output: " ++ run_output run),
       fs)
  | None =>
      match parseFioOutput fs tmpFile with
      | inr err => (with_Error result ("failed to parse fio output: " ++ err), fs)
      | inl fioOutput =>
          let result :=
            match FioOutput.Jobs fioOutput with
            | job :: _ => extractMetrics result job (FioOutput.DiskUtil fioOutput)
            | [] => result
            end in
          (result, os_Remove tmpFile fs)
      end
  end.

(** ** Cross-run aggregation

    The two loops below open both [saveResultsToJSON] and [displaySummary],
    statement for statement the same in the two functions. *)

(** [int64] addition of [time.Duration]. *)
Definition wrap64 (z : Z) : Z := (z + 2 ^ 63) mod 2 ^ 64 - 2 ^ 63.

Record Counts := mkCounts { passed : Z; failed : Z; totalDuration : Z }.

Definition countStep (c : Counts) (r : TestResult.t) : Counts :=
  if String.eqb (TestResult.Status r) PASSED
  then mkCounts (passed c + 1) (failed c) (wrap64 (totalDuration c + TestResult.Duration r))
  else mkCounts (passed c) (failed c + 1) (wrap64 (totalDuration c + TestResult.Duration r)).

Definition summaryCounts (results : list TestResult.t) : Counts :=
  fold_left countStep results (mkCounts 0 0 0).

Record Winners := mkWinners
  { maxIOPS : TestResult.t; maxBW : TestResult.t; minLatency : TestResult.t }.

Definition sentinelLatency : float := 999999999%float.

(** [minLatency] before the scan: the zero value with the sentinel latency. *)
Definition minLatency0 : TestResult.t :=
  TestResult.mk "" "" 0 0 0 0 0 0 0 0 sentinelLatency 0 "" None None [].

Definition winners0 : Winners := mkWinners TestResult.zero TestResult.zero minLatency0.

Section Highlights.
Local Open Scope float_scope.

Definition highlightStep (w : Winners) (r : TestResult.t) : Winners :=
  if String.eqb (TestResult.Status r) PASSED then
    {| maxIOPS :=
         if TestResult.TotalIOPS (maxIOPS w) <? TestResult.TotalIOPS r
         then r else maxIOPS w;
       maxBW :=
         if TestResult.TotalBWMBps (maxBW w) <? TestResult.TotalBWMBps r
         then r else maxBW w;
       minLatency :=
         if (TestResult.AvgLatencyUs r <? TestResult.AvgLatencyUs (minLatency w))
            && (0 <? TestResult.AvgLatencyUs r)
         then r else minLatency w |}
  else w.

Definition findHighlights (results : list TestResult.t) : Winners :=
  fold_left highlightStep results winners0.
End Highlights.

(** ** The persisted document: the structs of [saveResultsToJSON] *)

Module JSONSummary.
Record t := mk
  { TotalTests : Z; Passed : Z; Failed : Z; TotalDuration : text }.
Definition marshal (s : t) : json :=
  JObject [ ("total_tests", JInt (TotalTests s));
            ("passed", JInt (Passed s));
            ("failed", JInt (Failed s));
            ("total_duration", JString (TotalDuration s)) ].
End JSONSummary.

Module JSONIOPSDetail.
Record t := mk
  { IOPS : float; Min : float; Max : float; Avg : float; StdDev : float }.
Definition zero : t := mk 0 0 0 0 0.
Definition marshal (d : t) : json :=
  JObject [ ("iops", JNum (IOPS d)); ("min", JNum (Min d)); ("max", JNum (Max d));
            ("avg", JNum (Avg d)); ("stddev", JNum (StdDev d)) ].
End JSONIOPSDetail.

Module JSONIOPSStats.
Record t := mk
  { Read : JSONIOPSDetail.t; Write : JSONIOPSDetail.t; Total : float }.
Definition zero : t := mk JSONIOPSDetail.zero JSONIOPSDetail.zero 0.
Definition marshal (s : t) : json :=
  JObject [ ("read", JSONIOPSDetail.marshal (Read s));
            ("write", JSONIOPSDetail.marshal (Write s));
            ("total", JNum (Total s)) ].
End JSONIOPSStats.

Module JSONBandwidthDetail.
Record t := mk
  { BandwidthMBps : float; Min : float; Max : float; Avg : float }.
Definition zero : t := mk 0 0 0 0.
Definition marshal (d : t) : json :=
  JObject [ ("bandwidth_mbps", JNum (BandwidthMBps d)); ("min_mbps", JNum (Min d));
            ("max_mbps", JNum (Max d)); ("avg_mbps", JNum (Avg d)) ].
End JSONBandwidthDetail.

Module JSONBandwidthStats.
Record t := mk
  { Read : JSONBandwidthDetail.t; Write : JSONBandwidthDetail.t; Total : float }.
Definition zero : t := mk JSONBandwidthDetail.zero JSONBandwidthDetail.zero 0.
Definition marshal (s : t) : json :=
  JObject [ ("read", JSONBandwidthDetail.marshal (Read s));
            ("write", JSONBandwidthDetail.marshal (Write s));
            ("total_mbps", JNum (Total s)) ].
End JSONBandwidthStats.

Module JSONLatencyMetric.
Record t := mk { Min : float; Max : float; Avg : float; StdDev : float }.
Definition zero : t := mk 0 0 0 0.
Definition marshal (m : t) : json :=
  JObject [ ("min", JNum (Min m)); ("max", JNum (Max m));
            ("avg", JNum (Avg m)); ("stddev", JNum (StdDev m)) ].
End JSONLatencyMetric.

Module JSONLatencyDetail.
Record t := mk
  { SubmissionLat : JSONLatencyMetric.t;
    CompletionLat : JSONLatencyMetric.t;
    TotalLat : JSONLatencyMetric.t }.
Definition zero : t :=
  mk JSONLatencyMetric.zero JSONLatencyMetric.zero JSONLatencyMetric.zero.
Definition marshal (d : t) : json :=
  JObject [ ("submission_latency_us", JSONLatencyMetric.marshal (SubmissionLat d));
            ("completion_latency_us", JSONLatencyMetric.marshal (CompletionLat d));
            ("total_latency_us", JSONLatencyMetric.marshal (TotalLat d)) ].
End JSONLatencyDetail.

Module JSONLatencyStats.
Record t := mk { Read : JSONLatencyDetail.t; Write : JSONLatencyDetail.t }.
Definition zero : t := mk JSONLatencyDetail.zero JSONLatencyDetail.zero.
Definition marshal (s : t) : json :=
  JObject [ ("read", JSONLatencyDetail.marshal (Read s));
            ("write", JSONLatencyDetail.marshal (Write s)) ].
End JSONLatencyStats.

Module JSONPercentiles.
Record t := mk
  { P1 : float; P5 : float; P10 : float; P20 : float; P30 : float; P40 : float;
    P50 : float; P60 : float; P70 : float; P80 : float; P90 : float; P95 : float;
    P99 : float; P99_5 : float; P99_9 : float; P99_95 : float; P99_99 : float }.
Definition zero : t := mk 0 0 0 0 0 0 0 0 0 0 0 0 0 0 0 0 0.
Definition marshal (p : t) : json :=
  JObject [ ("p1", JNum (P1 p)); ("p5", JNum (P5 p)); ("p10", JNum (P10 p));
            ("p20", JNum (P20 p)); ("p30", JNum (P30 p)); ("p40", JNum (P40 p));
            ("p50", JNum (P50 p)); ("p60", JNum (P60 p)); ("p70", JNum (P70 p));
            ("p80", JNum (P80 p)); ("p90", JNum (P90 p)); ("p95", JNum (P95 p));
            ("p99", JNum (P99 p)); ("p99_5", JNum (P99_5 p));
            ("p99_9", JNum (P99_9 p)); ("p99_95", JNum (P99_95 p));
            ("p99_99", JNum (P99_99 p)) ].
End JSONPercentiles.

Module JSONCPUUsage.
Record t := mk
  { UserCPU : float; SystemCPU : float;
    ContextSwitches : Z; MajorFaults : Z; MinorFaults : Z }.
Definition zero : t := mk 0 0 0 0 0.
Definition marshal (c : t) : json :=
  JObject [ ("user_cpu_percent", JNum (UserCPU c));
            ("system_cpu_percent", JNum (SystemCPU c));
            ("context_switches", JInt (ContextSwitches c));
            ("major_faults", JInt (MajorFaults c));
            ("minor_faults", JInt (MinorFaults c)) ].
End JSONCPUUsage.

Module JSONDiskUtil.
Record t := mk
  { Device : string; ReadIOs : Z; WriteIOs : Z;
    ReadSectors : Z; WriteSectors : Z; Utilization : float }.
Definition marshal (d : t) : json :=
  JObject [ ("device", JString (Lit (Device d)));
            ("read_ios", JInt (ReadIOs d));
            ("write_ios", JInt (WriteIOs d));
            ("read_sectors", JInt (ReadSectors d));
            ("write_sectors", JInt (WriteSectors d));
            ("utilization_percent", JNum (Utilization d)) ].
End JSONDiskUtil.

Module JSONHighlight.
Record t := mk { TestName : string; Value : float; Unit : string }.
Definition marshal (h : t) : json :=
  JObject [ ("test_name", JString (Lit (TestName h)));
            ("value", JNum (Value h));
            ("unit", JString (Lit (Unit h))) ].
End JSONHighlight.

Module JSONPerformanceHighlights.
Record t := mk
  { HighestIOPS : JSONHighlight.t;
    HighestBandwidth : JSONHighlight.t;
    LowestLatency : JSONHighlight.t }.
Definition marshal (h : t) : json :=
  JObject [ ("highest_iops", JSONHighlight.marshal (HighestIOPS h));
            ("highest_bandwidth", JSONHighlight.marshal (HighestBandwidth h));
            ("lowest_latency", JSONHighlight.marshal (LowestLatency h)) ].
End JSONPerformanceHighlights.

Module JSONTestResult.
Record t := mk
  { TestName : string;
    Description : string;
    Status : string;
    Duration : text;
    IOPS : float;
    BandwidthMBps : float;
    LatencyUs : float;
    IOPSStats : JSONIOPSStats.t;
    BandwidthStats : JSONBandwidthStats.t;
    LatencyStats : JSONLatencyStats.t;
    Percentiles : JSONPercentiles.t;
    CPUUsage : JSONCPUUsage.t;
    DiskUtil : list JSONDiskUtil.t;
    Error : string }.

(** [omitempty] leaves a member out when the field is the empty string or a
    slice of length zero; on a struct-typed field ([Percentiles], [CPUUsage])
    [encoding/json] never leaves it out. *)
Definition marshal (r : t) : json :=
  JObject
    ([ ("test_name", JString (Lit (TestName r)));
       ("description", JString (Lit (Description r)));
       ("status", JString (Lit (Status r)));
       ("duration", JString (Duration r));
       ("iops", JNum (IOPS r));
       ("bandwidth_mbps", JNum (BandwidthMBps r));
       ("latency_us", JNum (LatencyUs r));
       ("iops_stats", JSONIOPSStats.marshal (IOPSStats r));
       ("bandwidth_stats", JSONBandwidthStats.marshal (BandwidthStats r));
       ("latency_stats", JSONLatencyStats.marshal (LatencyStats r));
       ("latency_percentiles", JSONPercentiles.marshal (Percentiles r));
       ("cpu_usage", JSONCPUUsage.marshal (CPUUsage r)) ]
     ++ match DiskUtil r with
        | [] => []
        | l => [ ("disk_utilization", JArray (map JSONDiskUtil.marshal l)) ]
        end
     ++ (if String.eqb (Error r) "" then []
         else [ ("error", JString (Lit (Error r))) ])).
End JSONTestResult.

Module JSONResults.
Record t := mk
  { Summary : JSONSummary.t;
    TestResults : list JSONTestResult.t;
    PerformanceHighlights : JSONPerformanceHighlights.t }.
Definition marshal (r : t) : json :=
  JObject [ ("summary", JSONSummary.marshal (Summary r));
            ("test_results", JArray (map JSONTestResult.marshal (TestResults r)));
            ("performance_highlights",
             JSONPerformanceHighlights.marshal (PerformanceHighlights r)) ].
End JSONResults.

Section Persist.
Local Open Scope float_scope.

Definition getPercentile (percentiles : gmap string float) (key : string) : float :=
  match percentiles !! key with
  | Some val => val
  | None => 0
  end.

Definition latencyMetric (mn mx mean sd : float) : JSONLatencyMetric.t :=
  {| JSONLatencyMetric.Min := mn / 1000;
     JSONLatencyMetric.Max := mx / 1000;
     JSONLatencyMetric.Avg := mean / 1000;
     JSONLatencyMetric.StdDev := sd / 1000 |}.

Definition latencyDetail (io : FioIO.t) : JSONLatencyDetail.t :=
  {| JSONLatencyDetail.SubmissionLat :=
       latencyMetric (FioLatNs.Min (FioIO.Slat io)) (FioLatNs.Max (FioIO.Slat io))
                     (FioLatNs.Mean (FioIO.Slat io)) (FioLatNs.Stddev (FioIO.Slat io));
     JSONLatencyDetail.CompletionLat :=
       latencyMetric (FioClat.Min (FioIO.Clat io)) (FioClat.Max (FioIO.Clat io))
                     (FioClat.Mean (FioIO.Clat io)) (FioClat.Stddev (FioIO.Clat io));
     JSONLatencyDetail.TotalLat :=
       latencyMetric (FioLatNs.Min (FioIO.LatNs io)) (FioLatNs.Max (FioIO.LatNs io))
                     (FioLatNs.Mean (FioIO.LatNs io)) (FioLatNs.Stddev (FioIO.LatNs io)) |}.

Definition iopsDetail (iops : float) (io : FioIO.t) : JSONIOPSDetail.t :=
  {| JSONIOPSDetail.IOPS := iops;
     JSONIOPSDetail.Min := FioIO.IOPSMin io;
     JSONIOPSDetail.Max := FioIO.IOPSMax io;
     JSONIOPSDetail.Avg := FioIO.IOPSMean io;
     JSONIOPSDetail.StdDev := FioIO.IOPSStddev io |}.

Definition bandwidthDetail (bw : float) (io : FioIO.t) : JSONBandwidthDetail.t :=
  {| JSONBandwidthDetail.BandwidthMBps := bw;
     JSONBandwidthDetail.Min := FioIO.BWMin io / 1024;
     JSONBandwidthDetail.Max := FioIO.BWMax io / 1024;
     JSONBandwidthDetail.Avg := FioIO.BWMean io / 1024 |}.

(** The percentile block, built when the read completion-latency mapping is
    not empty. *)
Definition percentilesOf (m : gmap string float) : JSONPercentiles.t :=
  {| JSONPercentiles.P1 := getPercentile m "1.000000" / 1000;
     JSONPercentiles.P5 := getPercentile m "5.000000" / 1000;
     JSONPercentiles.P10 := getPercentile m "10.000000" / 1000;
     JSONPercentiles.P20 := getPercentile m "20.000000" / 1000;
     JSONPercentiles.P30 := getPercentile m "30.000000" / 1000;
     JSONPercentiles.P40 := getPercentile m "40.000000" / 1000;
     JSONPercentiles.P50 := getPercentile m "50.000000" / 1000;
     JSONPercentiles.P60 := getPercentile m "60.000000" / 1000;
     JSONPercentiles.P70 := getPercentile m "70.000000" / 1000;
     JSONPercentiles.P80 := getPercentile m "80.000000" / 1000;
     JSONPercentiles.P90 := getPercentile m "90.000000" / 1000;
     JSONPercentiles.P95 := getPercentile m "95.000000" / 1000;
     JSONPercentiles.P99 := getPercentile m "99.000000" / 1000;
     JSONPercentiles.P99_5 := getPercentile m "99.500000" / 1000;
     JSONPercentiles.P99_9 := getPercentile m "99.900000" / 1000;
     JSONPercentiles.P99_95 := getPercentile m "99.950000" / 1000;
     JSONPercentiles.P99_99 := getPercentile m "99.990000" / 1000 |}.

Definition diskUtilOf (disk : FioDiskUtil.t) : JSONDiskUtil.t :=
  {| JSONDiskUtil.Device := FioDiskUtil.Name disk;
     JSONDiskUtil.ReadIOs := FioDiskUtil.ReadIOs disk;
     JSONDiskUtil.WriteIOs := FioDiskUtil.WriteIOs disk;
     JSONDiskUtil.ReadSectors := FioDiskUtil.ReadSectors disk;
     JSONDiskUtil.WriteSectors := FioDiskUtil.WriteSectors disk;
     JSONDiskUtil.Utilization := FioDiskUtil.Util disk |}.

(** One iteration of the "Add test results" loop. *)
Definition testResultOf (r : TestResult.t) : JSONTestResult.t :=
  let job := TestResult.FioJob r in
  {| JSONTestResult.TestName := TestResult.TestName r;
     JSONTestResult.Description := TestResult.Description r;
     JSONTestResult.Status := TestResult.Status r;
     JSONTestResult.Duration := DurationRoundString (TestResult.Duration r);
     JSONTestResult.IOPS := TestResult.TotalIOPS r;
     JSONTestResult.BandwidthMBps := TestResult.TotalBWMBps r;
     JSONTestResult.LatencyUs := TestResult.AvgLatencyUs r;
     JSONTestResult.IOPSStats :=
       match job with
       | Some j =>
           {| JSONIOPSStats.Read :=
                iopsDetail (TestResult.ReadIOPS r) (FioJobResult.Read j);
              JSONIOPSStats.Write :=
                iopsDetail (TestResult.WriteIOPS r) (FioJobResult.Write j);
              JSONIOPSStats.Total := TestResult.TotalIOPS r |}
       | None => JSONIOPSStats.zero
       end;
     JSONTestResult.BandwidthStats :=
       match job with
       | Some j =>
           {| JSONBandwidthStats.Read :=
                bandwidthDetail (TestResult.ReadBWMBps r) (FioJobResult.Read j);
              JSONBandwidthStats.Write :=
                bandwidthDetail (TestResult.WriteBWMBps r) (FioJobResult.Write j);
              JSONBandwidthStats.Total := TestResult.TotalBWMBps r |}
       | None => JSONBandwidthStats.zero
       end;
     JSONTestResult.LatencyStats :=
       match job with
       | Some j =>
           {| JSONLatencyStats.Read := latencyDetail (FioJobResult.Read j);
              JSONLatencyStats.Write := latencyDetail (FioJobResult.Write j) |}
       | None => JSONLatencyStats.zero
       end;
     JSONTestResult.Percentiles :=
       match job with
       | Some j =>
           let m := FioClat.Percentile (FioIO.Clat (FioJobResult.Read j)) in
           if (0 <? Z.of_nat (size m))%Z then percentilesOf m else JSONPercentiles.zero
       | None => JSONPercentiles.zero
       end;
     JSONTestResult.CPUUsage :=
       match job with
       | Some j =>
           {| JSONCPUUsage.UserCPU := FioJobResult.UsrCPU j;
              JSONCPUUsage.SystemCPU := FioJobResult.SysCPU j;
              JSONCPUUsage.ContextSwitches := FioJobResult.Ctx j;
              JSONCPUUsage.MajorFaults := FioJobResult.MajF j;
              JSONCPUUsage.MinorFaults := FioJobResult.MinF j |}
       | None => JSONCPUUsage.zero
       end;
     JSONTestResult.DiskUtil := map diskUtilOf (TestResult.DiskUtil r);
     JSONTestResult.Error :=
       match TestResult.Error r with
       | Some e => e
       | None => ""
       end |}.

(** The "Build JSON structure" part of [saveResultsToJSON]. *)
Definition buildJSONResults (results : list TestResult.t) : JSONResults.t :=
  let c := summaryCounts results in
  let w := findHighlights results in
  {| JSONResults.Summary :=
       {| JSONSummary.TotalTests := Z.of_nat (length results);
          JSONSummary.Passed := passed c;
          JSONSummary.Failed := failed c;
          JSONSummary.TotalDuration := DurationString (totalDuration c) |};
     JSONResults.TestResults := map testResultOf results;
     JSONResults.PerformanceHighlights :=
       {| JSONPerformanceHighlights.HighestIOPS :=
            {| JSONHighlight.TestName := TestResult.TestName (maxIOPS w);
               JSONHighlight.Value := TestResult.TotalIOPS (maxIOPS w);
               JSONHighlight.Unit := "iops" |};
          JSONPerformanceHighlights.HighestBandwidth :=
            {| JSONHighlight.TestName := TestResult.TestName (maxBW w);
               JSONHighlight.Value := TestResult.TotalBWMBps (maxBW w);
               JSONHighlight.Unit := "MB/s" |};
          JSONPerformanceHighlights.LowestLatency :=
            {| JSONHighlight.TestName := TestResult.TestName (minLatency w);
               JSONHighlight.Value := TestResult.AvgLatencyUs (minLatency w);
               JSONHighlight.Unit := "μs" |} |} |}.
End Persist.

(** [json.MarshalIndent] refuses a NaN or an infinite number. *)
Fixpoint json_supported (j : json) : bool :=
  match j with
  | JNum x => is_finite x
  | JInt _ | JString _ => true
  | JArray l =>
      (fix all (l : list json) : bool :=
         match l with
         | [] => true
         | x :: l => json_supported x && all l
         end) l
  | JObject members =>
      (fix all (ms : list (string * json)) : bool :=
         match ms with
         | [] => true
         | (_, v) :: ms => json_supported v && all ms
         end) members
  end.

(** [saveResultsToJSON]: the returned error, and the file system afterwards.
    [write_err] is the error [os.WriteFile] meets, if any. *)
Definition saveResultsToJSON (write_err : option string)
    (results : list TestResult.t) (filename : string) (fs : FS)
    : option string * FS :=
  let jsonResults := buildJSONResults results in
  let jsonData := JSONResults.marshal jsonResults in
  if json_supported jsonData then
    match write_err with
    | Some err => (Some ("failed to write JSON file: " ++ err), fs)
    | None => (None, <[filename := ReportDoc jsonData]> fs)
    end
  else (Some "failed to marshal JSON: json: unsupported value", fs).

(** Reading a member of a JSON object. *)
Fixpoint assoc (key : string) (ms : list (string * json)) : option json :=
  match ms with
  | [] => None
  | (k, v) :: ms => if String.eqb k key then Some v else assoc key ms
  end.

Definition member (key : string) (j : json) : option json :=
  match j with
  | JObject ms => assoc key ms
  | _ => None
  end.

(** ** The interactive view *)

Record Table := mkTable
  { header : list string;
    colMinWidths : list Z;
    rows : list (list text) }.

Inductive out :=
| Println (s : string)
| Render (t : Table).

(** The column widths fixed by [configureTable]. *)
Definition configureTable (colCount : Z) : list Z :=
  match colCount with
  | 2 => [40; 66]
  | 3 => [40; 32; 31]
  | 4 => [40; 20; 20; 20]
  | 6 => [40; 11; 11; 11; 11; 10]
  | _ => []
  end.

Definition percentiles : list string :=
  [ "1.000000"; "5.000000"; "10.000000"; "20.000000"; "30.000000"; "40.000000";
    "50.000000"; "60.000000"; "70.000000"; "80.000000"; "90.000000"; "95.000000";
    "99.000000"; "99.500000"; "99.900000"; "99.950000"; "99.990000" ].

Section Display.
Local Open Scope float_scope.

Definition f0 (x : float) : text := Sprintf "%.0f" (AFloat x).
Definition f2 (x : float) : text := Sprintf "%.2f" (AFloat x).
Definition pct (x : float) : text := Sprintf "%.2f%%" (AFloat x).
Definition dec (z : Z) : text := Sprintf "%d" (AInt z).

(** The rows of the percentile table: one per canonical label found in the
    mapping, in the canonical order. *)
Definition percentileRows (m : gmap string float) : list (list text) :=
  flat_map
    (fun p =>
       match m !! p with
       | Some val => [ [ Sprintf "p%.2f" (AParseFloat p); f2 (val / 1000) ] ]
       | None => []
       end)
    percentiles.

Definition latRow (label : string) (r w : float) : list text :=
  [ Lit label; f2 (r / 1000); f2 (w / 1000) ].

Definition latencyRows (job : FioJobResult.t) : list (list text) :=
  let rd := FioJobResult.Read job in
  let wr := FioJobResult.Write job in
  [ latRow "Submission Lat (slat) Min"
      (FioLatNs.Min (FioIO.Slat rd)) (FioLatNs.Min (FioIO.Slat wr));
    latRow "Submission Lat (slat) Max"
      (FioLatNs.Max (FioIO.Slat rd)) (FioLatNs.Max (FioIO.Slat wr));
    latRow "Submission Lat (slat) Avg"
      (FioLatNs.Mean (FioIO.Slat rd)) (FioLatNs.Mean (FioIO.Slat wr));
    latRow "Submission Lat (slat) StdDev"
      (FioLatNs.Stddev (FioIO.Slat rd)) (FioLatNs.Stddev (FioIO.Slat wr));
    [ Lit ""; Lit ""; Lit "" ];
    latRow "Completion Lat (clat) Min"
      (FioClat.Min (FioIO.Clat rd)) (FioClat.Min (FioIO.Clat wr));
    latRow "Completion Lat (clat) Max"
      (FioClat.Max (FioIO.Clat rd)) (FioClat.Max (FioIO.Clat wr));
    latRow "Completion Lat (clat) Avg"
      (FioClat.Mean (FioIO.Clat rd)) (FioClat.Mean (FioIO.Clat wr));
    latRow "Completion Lat (clat) StdDev"
      (FioClat.Stddev (FioIO.Clat rd)) (FioClat.Stddev (FioIO.Clat wr));
    [ Lit ""; Lit ""; Lit "" ];
    latRow "Total Lat Min"
      (FioLatNs.Min (FioIO.LatNs rd)) (FioLatNs.Min (FioIO.LatNs wr));
    latRow "Total Lat Max"
      (FioLatNs.Max (FioIO.LatNs rd)) (FioLatNs.Max (FioIO.LatNs wr));
    latRow "Total Lat Avg"
      (FioLatNs.Mean (FioIO.LatNs rd)) (FioLatNs.Mean (FioIO.LatNs wr));
    latRow "Total Lat StdDev"
      (FioLatNs.Stddev (FioIO.LatNs rd)) (FioLatNs.Stddev (FioIO.LatNs wr)) ].

Definition diskRow (disk : FioDiskUtil.t) : list text :=
  [ Lit (FioDiskUtil.Name disk);
    dec (FioDiskUtil.ReadIOs disk);
    dec (FioDiskUtil.WriteIOs disk);
    dec (FioDiskUtil.ReadSectors disk);
    dec (FioDiskUtil.WriteSectors disk);
    pct (FioDiskUtil.Util disk) ].

Definition displayTestResult (result : TestResult.t) : list out :=
  if String.eqb (TestResult.Status result) FAILED then
    [ Render
        (mkTable [ "Metric"; "Value" ] (configureTable 2)
           ([ [ Lit "Status"; Sprintf "❌ %s" (AStr (TestResult.Status result)) ] ]
            ++ match TestResult.Error result with
               | Some e => [ [ Lit "Error"; Lit e ] ]
               | None => []
               end)) ]
  else
    let job := TestResult.FioJob result in
    let withJob {A} (f : FioJobResult.t -> list A) : list A :=
      match job with Some j => f j | None => [] end in
    [ Println "Test Information";
      Render
        (mkTable [ "Metric"; "Value" ] (configureTable 2)
           [ [ Lit "Status"; Lit "✅ PASSED" ];
             [ Lit "Test Name"; Lit (TestResult.TestName result) ];
             [ Lit "Description"; Lit (TestResult.Description result) ];
             [ Lit "Duration"; DurationRoundString (TestResult.Duration result) ] ]);
      Println "";
      Println "IOPS Statistics";
      Render
        (mkTable [ ""; "Read"; "Write"; "Total" ] (configureTable 4)
           ([ [ Lit "IOPS"; f0 (TestResult.ReadIOPS result);
                f0 (TestResult.WriteIOPS result); f0 (TestResult.TotalIOPS result) ] ]
            ++ withJob (fun j =>
                 let rd := FioJobResult.Read j in
                 let wr := FioJobResult.Write j in
                 [ [ Lit "IOPS Min"; f0 (FioIO.IOPSMin rd); f0 (FioIO.IOPSMin wr); Lit "-" ];
                   [ Lit "IOPS Max"; f0 (FioIO.IOPSMax rd); f0 (FioIO.IOPSMax wr); Lit "-" ];
                   [ Lit "IOPS Avg"; f0 (FioIO.IOPSMean rd); f0 (FioIO.IOPSMean wr); Lit "-" ];
                   [ Lit "IOPS StdDev"; f0 (FioIO.IOPSStddev rd);
                     f0 (FioIO.IOPSStddev wr); Lit "-" ] ])));
      Println "";
      Println "Bandwidth Statistics";
      Render
        (mkTable [ ""; "Read (MB/s)"; "Write (MB/s)"; "Total (MB/s)" ] (configureTable 4)
           ([ [ Lit "Bandwidth"; f2 (TestResult.ReadBWMBps result);
                f2 (TestResult.WriteBWMBps result); f2 (TestResult.TotalBWMBps result) ] ]
            ++ withJob (fun j =>
                 let rd := FioJobResult.Read j in
                 let wr := FioJobResult.Write j in
                 [ [ Lit "BW Min"; f2 (FioIO.BWMin rd / 1024);
                     f2 (FioIO.BWMin wr / 1024); Lit "-" ];
                   [ Lit "BW Max"; f2 (FioIO.BWMax rd / 1024);
                     f2 (FioIO.BWMax wr / 1024); Lit "-" ];
                   [ Lit "BW Avg"; f2 (FioIO.BWMean rd / 1024);
                     f2 (FioIO.BWMean wr / 1024); Lit "-" ] ])));
      Println "";
      Println "Latency Statistics (microseconds)";
      Render (mkTable [ ""; "Read"; "Write" ] (configureTable 3) (withJob latencyRows));
      Println "" ]
    ++ withJob (fun j =>
         let m := FioClat.Percentile (FioIO.Clat (FioJobResult.Read j)) in
         if (0 <? Z.of_nat (size m))%Z then
           [ Println "Completion Latency Percentiles (microseconds) - Read";
             Render (mkTable [ "Percentile"; "Latency (μs)" ] (configureTable 2)
                       (percentileRows m));
             Println "" ]
         else [])
    ++ withJob (fun j =>
         [ Println "CPU Usage";
           Render
             (mkTable [ "Metric"; "Value" ] (configureTable 2)
                [ [ Lit "User CPU"; pct (FioJobResult.UsrCPU j) ];
                  [ Lit "System CPU"; pct (FioJobResult.SysCPU j) ];
                  [ Lit "Context Switches"; dec (FioJobResult.Ctx j) ];
                  [ Lit "Major Faults"; dec (FioJobResult.MajF j) ];
                  [ Lit "Minor Faults"; dec (FioJobResult.MinF j) ] ]);
           Println "" ])
    ++ match TestResult.DiskUtil result with
       | [] => []
       | disks =>
           [ Println "Disk Utilization";
             Render
               (mkTable
                  [ "Device"; "Rd IOPS"; "Wr IOPS"; "Rd Sectors"; "Wr Sectors"; "Util%" ]
                  (configureTable 6) (map diskRow disks));
             Println "" ]
       end.
End Display.

Section Summary.
Local Open Scope float_scope.

Definition rule80 : string := String.concat "" (repeat "=" 80%nat).

(** One row of the per-test comparison table. *)
Definition detailsRow (r : TestResult.t) : list text :=
  let ok := String.eqb (TestResult.Status r) PASSED in
  [ Lit (TestResult.TestName r);
    Lit (if ok then "✅" else "❌");
    (if ok then f0 (TestResult.TotalIOPS r) else Lit "-");
    (if ok then f2 (TestResult.TotalBWMBps r) else Lit "-");
    (if ok then f2 (TestResult.AvgLatencyUs r) else Lit "-");
    DurationRoundString (TestResult.Duration r) ].

(** [testName[:32]] when the name is longer than 32 bytes. *)
Definition truncate32 (testName : string) : string :=
  if (32 <? Z.of_nat (String.length testName))%Z
  then substring 0 32 testName else testName.

Definition highlightRows (w : Winners) : list (list text) :=
  (if 0 <? TestResult.TotalIOPS (maxIOPS w)
   then [ [ Lit "Highest IOPS"; Lit (truncate32 (TestResult.TestName (maxIOPS w)));
            f0 (TestResult.TotalIOPS (maxIOPS w)) ] ]
   else [])
  ++ (if 0 <? TestResult.TotalBWMBps (maxBW w)
      then [ [ Lit "Highest Bandwidth";
               Lit (truncate32 (TestResult.TestName (maxBW w)));
               Sprintf "%.2f MB/s" (AFloat (TestResult.TotalBWMBps (maxBW w))) ] ]
      else [])
  ++ (if TestResult.AvgLatencyUs (minLatency w) <? sentinelLatency
      then [ [ Lit "Lowest Latency";
               Lit (truncate32 (TestResult.TestName (minLatency w)));
               Sprintf "%.2f μs" (AFloat (TestResult.AvgLatencyUs (minLatency w))) ] ]
      else []).

Definition displaySummary (results : list TestResult.t) : list out :=
  let c := summaryCounts results in
  let w := findHighlights results in
  [ Println "";
    Println rule80;
    Println "=== OVERALL SUMMARY ===";
    Println rule80;
    Println "";
    Render
      (mkTable [ "Metric"; "Value" ] (configureTable 2)
         [ [ Lit "Total Tests"; Itoa (Z.of_nat (length results)) ];
           [ Lit "Passed"; Itoa (passed c) ];
           [ Lit "Failed"; Itoa (failed c) ];
           [ Lit "Total Duration"; DurationString (totalDuration c) ] ]);
    Println "";
    Render
      (mkTable [ "Test Name"; "Status"; "IOPS"; "BW (MB/s)"; "Lat (μs)"; "Duration" ]
         [ 40; 11; 11; 11; 11; 10 ]%Z (map detailsRow results));
    Println "";
    Println "=== Performance Highlights ===";
    Render (mkTable [ "Category"; "Test"; "Value" ] (configureTable 3) (highlightRows w));
    Println "";
    Println rule80;
    Println "Testing completed!";
    Println rule80 ].
End Summary.

(** ** The command line

    [FioTest.t] above is the part of a test definition that [runTest] reads for
    its result; [FioTestFull.t] is the whole struct, as [buildFioCommand] needs
    it. *)

Module FioTestFull.
Record t := mk
  { Name : string;
    Description : string;
    Filename : string;
    Size : string;
    Direct : Z;
    RW : string;
    BS : string;
    IOEngine : string;
    IODepth : Z;
    NumJobs : Z;
    TimeBased : bool;
    GroupReporting : bool;
    Runtime : Z;
    EtaNewline : Z }.
End FioTestFull.



(** ** The run as a whole: [main]

    What [main] cannot decide by itself is given to it: whether the tool is
    installed ([checkFioInstalled]), what [loadTestCases] returned, the clock
    and the behaviour of the tool at each test in turn, the time stamp of the
    report's name, and the error of the final write, if any. *)

Record World := mkWorld
  { fio_installed : bool;
    loaded : list FioTest.t + string;
    at_test : nat -> Clock * FioRun;
    timestamp : string;
    write_err : option string }.

(** The loop over the test cases, from the [i]-th test on; [total] is
    [len(testCases.Tests)].  It returns what was printed, the results
    collected and the file system. *)
Fixpoint runLoop (w : World) (total : nat) (i : nat) (tests : list FioTest.t)
    (results : list TestResult.t) (fs : FS)
    : list out * list TestResult.t * FS :=
  match tests with
  | [] => ([], results, fs)
  | test :: tests =>
      let '(result, fs) := runTest (fst (at_test w i)) (snd (at_test w i)) test fs in
      let '(printed, results, fs) :=
        runLoop w total (S i) tests (results ++ [result])%list fs in
      ([ Println ("[" ++ Z_to_string (Z.of_nat i + 1) ++ "/"
                  ++ Z_to_string (Z.of_nat total) ++ "] Running test: "
                  ++ FioTest.Description test)%string;
         Println rule80 ]
       ++ displayTestResult result ++ [ Println "" ] ++ printed,
       results, fs)%list
  end.

(** [main]: the exit status, what was printed, and the file system. *)
Definition main (w : World) (fs : FS) : Z * list out * FS :=
  let banner := [ Println "=== FIO Disk Performance Testing Tool ==="; Println "" ] in
  if negb (fio_installed w) then
    (1, banner ++ [ Println "Error: fio is not installed or not in PATH";
                    Println "Please install fio before running this tool" ], fs)%list
  else
    match loaded w with
    | inr err =>
        (1, banner ++ [ Println ("Error loading test cases: " ++ err)%string ], fs)%list
    | inl tests =>
        let '(printed, results, fs) := runLoop w (length tests) 0 tests [] fs in
        let filename := ("test_results-" ++ timestamp w ++ ".json")%string in
        let '(err, fs) := saveResultsToJSON (write_err w) results filename fs in
        (0,
         banner
         ++ [ Println ("Loaded " ++ Z_to_string (Z.of_nat (length tests))
                       ++ " test cases")%string;
              Println "" ]
         ++ printed
         ++ displaySummary results
         ++ match err with
            | Some e =>
                [ Println ("Warning: Failed to save results to JSON: " ++ e)%string ]
            | None => [ Println ""; Println ("Results saved to: " ++ filename)%string ]
            end,
         fs)%list
    end.

(** ** Vocabulary of the statements *)

(** The path of the temporary document of a run. *)
Definition tmpOf (clk : Clock) (test : FioTest.t) : string :=
  tmpFileName (FioTest.Name test) (unix_now clk).

(** What [parseFioOutput] meets once the command has returned. *)
Definition parsed (clk : Clock) (run : FioRun) (test : FioTest.t) (fs : FS)
    : FioOutput.t + string :=
  parseFioOutput (exec_fio run (tmpOf clk test) fs) (tmpOf clk test).

(** A latency is present when it is not zero (an absent JSON number decodes
    to zero). *)
Definition present (x : float) : bool := negb (x =? 0)%float.

Definition metrics_zero (r : TestResult.t) : Prop :=
  TestResult.ReadIOPS r = 0%float /\ TestResult.WriteIOPS r = 0%float /\
  TestResult.TotalIOPS r = 0%float /\
  TestResult.ReadBWMBps r = 0%float /\ TestResult.WriteBWMBps r = 0%float /\
  TestResult.TotalBWMBps r = 0%float /\
  TestResult.ReadLatencyUs r = 0%float /\ TestResult.WriteLatencyUs r = 0%float /\
  TestResult.AvgLatencyUs r = 0%float.


(** The read completion-latency percentile mapping of a job. *)
Definition readPercentiles (j : FioJobResult.t) : gmap string float :=
  FioClat.Percentile (FioIO.Clat (FioJobResult.Read j)).

(** A member of a member of a JSON object. *)
Definition member2 (k1 k2 : string) (j : json) : option json :=
  match member k1 j with
  | Some o => member k2 o
  | None => None
  end.

(** The persisted block of one result. *)
Definition persisted (r : TestResult.t) : json :=
  JSONTestResult.marshal (testResultOf r).

(** A rendered table is well formed when it has one minimal width per
    column and every row has one cell per column. *)
Definition table_ok (t : Table) : Prop :=
  length (colMinWidths t) = length (header t) /\
  Forall (fun row => length row = length (header t)) (rows t).

Definition out_ok (o : out) : Prop :=
  match o with
  | Println _ => True
  | Render t => table_ok t
  end.

(** The Passed results of a sequence, and the exact sum of its durations. *)
Definition is_passed (r : TestResult.t) : bool := String.eqb (TestResult.Status r) PASSED.

Definition countPassed (results : list TestResult.t) : nat :=
  length (List.filter is_passed results).

Definition sumDurations (results : list TestResult.t) : Z :=
  fold_right Z.add 0 (map TestResult.Duration results).

(** A result qualifies for the lowest-latency highlight when it is Passed and
    its combined latency is above zero. *)
Definition qualifies (r : TestResult.t) : Prop :=
  TestResult.Status r = PASSED /\ (0 <? TestResult.AvgLatencyUs r)%float = true.

(** The cell of a percentile row. *)
Definition percentileRow (p : string) (val : float) : list text :=
  [ Sprintf "p%.2f" (AParseFloat p); f2 (val / 1000)%float ].

(** The canonical labels found in a mapping, with their values, in the
    canonical order. *)
Definition presentPercentiles (m : gmap string float) : list (string * float) :=
  omap (fun p => match m !! p with Some val => Some (p, val) | None => None end)
       percentiles.

(** The scan for a highest value, for either of the two keys it is run on
    (combined IOPS, combined bandwidth): a Passed result strictly above the
    running winner replaces it. *)
Definition scanMax (key : TestResult.t -> float) (cur : TestResult.t)
    (results : list TestResult.t) : TestResult.t :=
  fold_left (fun cur r => if is_passed r && (key cur <? key r)%float then r else cur)
            results cur.

(** ** Sample inputs *)

Definition lat_mean (mean : float) : FioLatNs.t := FioLatNs.mk 0 0 mean 0 ∅.

(** A direction with the given IOPS, bandwidth (bytes per second) and mean
    total latency (nanoseconds); every other field is absent. *)
Definition io_of (iops bw mean : float) : FioIO.t :=
  FioIO.mk iops bw 0 0 0 0 0 0 FioLatNs.zero FioClat.zero (lat_mean mean) 0 0 0 0.

Definition job_of (rd wr : FioIO.t) : FioJobResult.t :=
  FioJobResult.mk "job" rd wr FioSync.zero 0 0 0 0 0 ∅ ∅.

Definition doc_of (jobs : list FioJobResult.t) : FioOutput.t :=
  FioOutput.mk "fio-3.38" jobs [].

(** The tool exits normally and leaves [d] at the output path. *)
Definition ran (d : fileData) : FioRun := mkFioRun None "" (Some d).

Definition clk0 : Clock := mkClock 1700000000 10000000000.
Definition test0 : FioTest.t := FioTest.mk "randread" "Random Read".

(** Reads and writes both report a latency, but no read was completed. *)
Definition job_write_only : FioJobResult.t :=
  job_of (io_of 0 0 2000) (io_of 100 409600 4000).

(** A mixed job: both directions completed operations. *)
Definition job_mixed : FioJobResult.t :=
  job_of (io_of 300 1228800 2000) (io_of 100 409600 4000).

(** The scenario of the specification: 738406 read IOPS at 3,024,000,000
    bytes per second, no writes. *)
Definition job_scenario : FioJobResult.t :=
  job_of (io_of 738406 3024000000 1385970) FioIO.zero.

(** The same measurement document under two test names. *)
Definition result_named (name : string) (job : FioJobResult.t) : TestResult.t :=
  fst (runTest clk0 (ran (FioDoc (doc_of [job]))) (FioTest.mk name "") ∅).

(** A job that completed neither reads nor writes (a trim-only workload). *)
Definition job_idle : FioJobResult.t := job_of FioIO.zero FioIO.zero.


(** A run whose command failed before writing anything. *)
Definition run_failed : FioRun := mkFioRun (Some "exit status 1") "fio: bad option" None.

(** A Passed result with the given combined metrics, as the aggregator sees
    it. *)
Definition passed_result (name : string) (iops bw lat : float) : TestResult.t :=
  TestResult.mk name "" iops 0 iops bw 0 bw lat 0 lat 0 PASSED None None [].

Definition result_A : TestResult.t := passed_result "A" 500000 2000 10.
Definition result_B : TestResult.t := passed_result "B" 700000 1500 50.



Definition test_full : FioTestFull.t :=
  FioTestFull.mk "randread" "Random Read" "/tmp/fio.dat" "1G" 1 "randread" "4k"
    "libaio" 256 4 true false 10 1.

(** A mapping whose only label is not a canonical one. *)
Definition job_odd_percentile : FioJobResult.t :=
  job_of
    (FioIO.mk 100 409600 0 0 0 0 0 0 FioLatNs.zero
       (FioClat.mk 0 0 0 0 {[ "99.999000" := 9000000%float ]})
       (lat_mean 4000) 0 0 0 0)
    FioIO.zero.


(** ** [runTest], path by path *)

Lemma runTest_command_failed clk run test fs err :
  run_err run = Some err ->
  runTest clk run test fs =
    (with_Error (resultInit test (elapsed clk))
       ("fio command failed: " ++ err ++ newline ++ "Output: " ++ run_output run),
     exec_fio run (tmpOf clk test) fs).
Proof. intros H. unfold runTest. now rewrite H. Qed.

Lemma runTest_parse_failed clk run test fs err :
  run_err run = None ->
  parsed clk run test fs = inr err ->
  runTest clk run test fs =
    (with_Error (resultInit test (elapsed clk)) ("failed to parse fio output: " ++ err),
     exec_fio run (tmpOf clk test) fs).
Proof.
  intros H1 H2. unfold runTest. rewrite H1.
  unfold parsed, tmpOf in H2. now rewrite H2.
Qed.

Lemma runTest_parsed clk run test fs o :
  run_err run = None ->
  parsed clk run test fs = inl o ->
  runTest clk run test fs =
    (match FioOutput.Jobs o with
     | job :: _ => extractMetrics (resultInit test (elapsed clk)) job (FioOutput.DiskUtil o)
     | [] => resultInit test (elapsed clk)
     end,
     os_Remove (tmpOf clk test) (exec_fio run (tmpOf clk test) fs)).
Proof.
  intros H1 H2. unfold runTest. rewrite H1.
  unfold parsed, tmpOf in H2. now rewrite H2.
Qed.

(** A run that wrote a well-formed document and exited normally parses it. *)
Lemma parsed_ran clk test fs o : parsed clk (ran (FioDoc o)) test fs = inl o.
Proof.
  unfold parsed, parseFioOutput, exec_fio, ran, FS.
  cbn [run_written]. now rewrite lookup_insert_eq.
Qed.

Lemma status_distinct : PASSED <> FAILED.
Proof. discriminate. Qed.

(** ** Combined latency *)

(** C1, as stated, fails on the code.  The job [job_write_only] reports a read
    latency of 2 us and a write latency of 4 us, both present, yet the combined
    latency of the run is 4 us, not their mean 3 us: the code selects by IOPS,
    not by latency.  And for a job with no latency in either direction the
    combined latency is the number zero, not an undefined value. *)
Lemma C1_counterexample :
  let r := fst (runTest clk0 (ran (FioDoc (doc_of [job_write_only]))) test0 ∅) in
  let z := fst (runTest clk0 (ran (FioDoc (doc_of [FioJobResult.zero]))) test0 ∅) in
  (TestResult.Status r = PASSED /\
   present (TestResult.ReadLatencyUs r) = true /\
   present (TestResult.WriteLatencyUs r) = true /\
   ((TestResult.ReadLatencyUs r + TestResult.WriteLatencyUs r) / 2 = 3)%float /\
   TestResult.AvgLatencyUs r = 4%float) /\
  (TestResult.Status z = PASSED /\
   present (TestResult.ReadLatencyUs z) = false /\
   present (TestResult.WriteLatencyUs z) = false /\
   TestResult.AvgLatencyUs z = 0%float).
Proof. vm_compute. repeat split. Qed.

(** C1, amended: in a run that parsed a document, the per-direction latencies
    are the mean total latencies of the first job divided by 1000, and the
    combined latency is chosen by the IOPS of the two directions: their
    binary64 mean [(L_r + L_w) / 2] when both IOPS are above zero, the read
    latency when only the read IOPS is, and the write latency otherwise. *)
Theorem C1_combined_latency_follows_iops clk run test fs o job rest :
  run_err run = None ->
  parsed clk run test fs = inl o ->
  FioOutput.Jobs o = job :: rest ->
  let r := fst (runTest clk run test fs) in
  let L_r := (FioLatNs.Mean (FioIO.LatNs (FioJobResult.Read job)) / 1000)%float in
  let L_w := (FioLatNs.Mean (FioIO.LatNs (FioJobResult.Write job)) / 1000)%float in
  let reads := (0 <? FioIO.IOPS (FioJobResult.Read job))%float in
  let writes := (0 <? FioIO.IOPS (FioJobResult.Write job))%float in
  TestResult.ReadLatencyUs r = L_r /\
  TestResult.WriteLatencyUs r = L_w /\
  (reads = true -> writes = true ->
   TestResult.AvgLatencyUs r = ((L_r + L_w) / 2)%float) /\
  (reads = true -> writes = false -> TestResult.AvgLatencyUs r = L_r) /\
  (reads = false -> TestResult.AvgLatencyUs r = L_w).
Proof.
  intros Herr Hdoc Hjobs r L_r L_w reads writes. subst r.
  rewrite (runTest_parsed _ _ _ _ _ Herr Hdoc), Hjobs. cbn [fst].
  unfold extractMetrics.
  cbn [TestResult.ReadLatencyUs TestResult.WriteLatencyUs TestResult.AvgLatencyUs].
  fold L_r L_w reads writes.
  repeat split.
  - intros -> ->. reflexivity.
  - intros -> ->. reflexivity.
  - intros ->. reflexivity.
Qed.

(** The statement of C1 at a concrete run. *)
Lemma C1_combined_latency_follows_iops_witness :
  let run := ran (FioDoc (doc_of [job_mixed])) in
  let r := fst (runTest clk0 run test0 ∅) in
  (run_err run = None /\
   parsed clk0 run test0 ∅ = inl (doc_of [job_mixed]) /\
   FioOutput.Jobs (doc_of [job_mixed]) = [job_mixed]) /\
  TestResult.ReadLatencyUs r = 2%float /\
  TestResult.WriteLatencyUs r = 4%float /\
  TestResult.AvgLatencyUs r = 3%float.
Proof.
  cbv zeta.
  assert (H1 : run_err (ran (FioDoc (doc_of [job_mixed]))) = None) by reflexivity.
  assert (H2 : parsed clk0 (ran (FioDoc (doc_of [job_mixed]))) test0 ∅
               = inl (doc_of [job_mixed])) by (vm_compute; reflexivity).
  assert (H3 : FioOutput.Jobs (doc_of [job_mixed]) = [job_mixed]) by reflexivity.
  split; [auto |].
  destruct (C1_combined_latency_follows_iops _ _ _ _ _ _ _ H1 H2 H3)
    as (Hr & Hw & Hboth & _ & _).
  rewrite Hr, Hw, (Hboth eq_refl eq_refl). vm_compute. auto.
Defined.

(** ** Failed results *)

Lemma with_Error_metrics_zero r e : metrics_zero r -> metrics_zero (with_Error r e).
Proof. intros H. exact H. Qed.

Lemma resultInit_metrics_zero test d : metrics_zero (resultInit test d).
Proof. unfold metrics_zero. cbn. repeat split. Qed.

Lemma extractMetrics_status r job du : TestResult.Status (extractMetrics r job du) = PASSED.
Proof. reflexivity. Qed.

(** C4, as stated, fails on the code: a run whose document decodes to an
    empty jobs list is Failed and carries no error description at all. *)
Lemma C4_counterexample :
  let r := fst (runTest clk0 (ran (FioDoc (doc_of []))) test0 ∅) in
  TestResult.Status r = FAILED /\ TestResult.Error r = None.
Proof. vm_compute. split; reflexivity. Qed.

(** C4, amended: every metric of a Failed result is zero; its error
    description is non-empty when the command failed or its document could
    not be parsed, and it has no error description when the document parsed
    with an empty jobs list (the only other way to fail). *)
Theorem C4_failed_result clk run test fs :
  let r := fst (runTest clk run test fs) in
  TestResult.Status r = FAILED ->
  metrics_zero r /\
  match run_err run, parsed clk run test fs with
  | Some _, _ | None, inr _ =>
      exists e, TestResult.Error r = Some e /\ e <> ""
  | None, inl o => FioOutput.Jobs o = [] /\ TestResult.Error r = None
  end.
Proof.
  intros r Hst. subst r.
  destruct (run_err run) as [err|] eqn:Herr.
  - rewrite (runTest_command_failed _ _ _ _ _ Herr) in *. cbn [fst] in *.
    split; [apply with_Error_metrics_zero, resultInit_metrics_zero |].
    eexists. split; [reflexivity | discriminate].
  - destruct (parsed clk run test fs) as [o|err] eqn:Hp.
    + rewrite (runTest_parsed _ _ _ _ _ Herr Hp) in *. cbn [fst] in *.
      destruct (FioOutput.Jobs o) as [|job rest].
      * split; [apply resultInit_metrics_zero | split; reflexivity].
      * rewrite extractMetrics_status in Hst. now apply status_distinct in Hst.
    + rewrite (runTest_parse_failed _ _ _ _ _ Herr Hp) in *. cbn [fst] in *.
      split; [apply with_Error_metrics_zero, resultInit_metrics_zero |].
      eexists. split; [reflexivity | discriminate].
Qed.

(** The statement of C4 at a concrete run. *)
Lemma C4_failed_result_witness :
  let run := mkFioRun (Some "exit status 1") "fio: unknown ioengine" None in
  let r := fst (runTest clk0 run test0 ∅) in
  TestResult.Status r = FAILED /\
  metrics_zero r /\
  exists e, TestResult.Error r = Some e /\ e <> "".
Proof.
  cbv zeta.
  assert (H : TestResult.Status
                (fst (runTest clk0 (mkFioRun (Some "exit status 1")
                                      "fio: unknown ioengine" None) test0 ∅))
              = FAILED) by reflexivity.
  split; [exact H |].
  exact (C4_failed_result clk0 (mkFioRun (Some "exit status 1")
                                  "fio: unknown ioengine" None) test0 ∅ H).
Defined.

(** ** The temporary document *)

(** C5 at its failing inputs.  When the tool leaves a document that does not
    decode, or writes its document and then exits with an error, [runTest]
    returns before its clean-up and the temporary document is still there;
    only a run that parses its document removes it. *)
Theorem C5_temporary_document_left_behind :
  let truncated := Malformed "unexpected end of JSON input" in
  let tmp := tmpOf clk0 test0 in
  snd (runTest clk0 (ran truncated) test0 ∅) !! tmp = Some truncated /\
  snd (runTest clk0 (mkFioRun (Some "exit status 1") "" (Some truncated)) test0 ∅) !! tmp
    = Some truncated /\
  snd (runTest clk0 (ran (FioDoc (doc_of [job_mixed]))) test0 ∅) !! tmp = None.
Proof. vm_compute. repeat split. Qed.

Lemma runTest_removes_parsed_document clk run test fs o :
  run_err run = None ->
  parsed clk run test fs = inl o ->
  snd (runTest clk run test fs) !! tmpOf clk test = None.
Proof.
  intros H1 H2. rewrite (runTest_parsed _ _ _ _ _ H1 H2). cbn [snd].
  unfold os_Remove, FS. apply lookup_delete_eq.
Qed.

(** ** The scenario of the specification *)

(** C9, as stated, fails on the code: 3,024,000,000 bytes per second divided
    by 1,048,576 is 2883.9111328125 MB/s, which is more than 0.12 above
    2883.79 and prints as 2883.91 with two decimals. *)
Lemma C9_counterexample :
  let r := fst (runTest clk0 (ran (FioDoc (doc_of [job_scenario]))) test0 ∅) in
  TestResult.ReadBWMBps r = 2883.9111328125%float /\
  (288379 + 12 <? TestResult.ReadBWMBps r * 100)%float = true.
Proof. vm_compute. split; reflexivity. Qed.

(** C9, amended: for a first job with read.iops = 738406, write.iops = 0 and
    a read bandwidth of 3,024,000,000 bytes per second, the run yields
    ReadIOPS = 738406, TotalIOPS = 738406 and a read bandwidth of exactly
    2883.9111328125 MB/s, that is 2883.91 to two decimals. *)
Theorem C9_scenario clk run test fs o job rest :
  run_err run = None ->
  parsed clk run test fs = inl o ->
  FioOutput.Jobs o = job :: rest ->
  FioIO.IOPS (FioJobResult.Read job) = 738406%float ->
  FioIO.IOPS (FioJobResult.Write job) = 0%float ->
  FioIO.BWBytes (FioJobResult.Read job) = 3024000000%float ->
  let r := fst (runTest clk run test fs) in
  TestResult.Status r = PASSED /\
  TestResult.ReadIOPS r = 738406%float /\
  TestResult.WriteIOPS r = 0%float /\
  TestResult.TotalIOPS r = 738406%float /\
  TestResult.ReadBWMBps r = 2883.9111328125%float /\
  (288391 <? TestResult.ReadBWMBps r * 100)%float = true /\
  (TestResult.ReadBWMBps r * 100 <? 288392)%float = true.
Proof.
  intros Herr Hdoc Hjobs Hr Hw Hbw r. subst r.
  rewrite (runTest_parsed _ _ _ _ _ Herr Hdoc), Hjobs. cbn [fst].
  unfold extractMetrics.
  cbn [TestResult.Status TestResult.ReadIOPS TestResult.WriteIOPS
       TestResult.TotalIOPS TestResult.ReadBWMBps].
  rewrite Hr, Hw, Hbw. vm_compute. repeat split.
Qed.

(** The statement of C9 at a concrete run. *)
Lemma C9_scenario_witness :
  let run := ran (FioDoc (doc_of [job_scenario])) in
  let r := fst (runTest clk0 run test0 ∅) in
  (run_err run = None /\
   parsed clk0 run test0 ∅ = inl (doc_of [job_scenario]) /\
   FioIO.IOPS (FioJobResult.Read job_scenario) = 738406%float /\
   FioIO.IOPS (FioJobResult.Write job_scenario) = 0%float /\
   FioIO.BWBytes (FioJobResult.Read job_scenario) = 3024000000%float) /\
  TestResult.ReadIOPS r = 738406%float /\
  TestResult.TotalIOPS r = 738406%float /\
  TestResult.ReadBWMBps r = 2883.9111328125%float.
Proof.
  cbv zeta.
  assert (H1 : run_err (ran (FioDoc (doc_of [job_scenario]))) = None) by reflexivity.
  assert (H2 : parsed clk0 (ran (FioDoc (doc_of [job_scenario]))) test0 ∅
               = inl (doc_of [job_scenario])) by (vm_compute; reflexivity).
  assert (H3 : FioIO.IOPS (FioJobResult.Read job_scenario) = 738406%float)
    by reflexivity.
  assert (H4 : FioIO.IOPS (FioJobResult.Write job_scenario) = 0%float) by reflexivity.
  assert (H5 : FioIO.BWBytes (FioJobResult.Read job_scenario) = 3024000000%float)
    by reflexivity.
  split; [auto 6 |].
  destruct (C9_scenario clk0 _ test0 ∅ _ job_scenario [] H1 H2 eq_refl H3 H4 H5)
    as (_ & Hr & _ & Ht & Hb & _).
  auto.
Defined.

(** ** Which job is read *)

(** C10: when the document parses, an empty jobs list leaves the result
    Failed; otherwise the result is Passed and every metric is computed from
    the first job alone, so that any other run whose document has the same
    first job and the same disk records gives the same result, whatever jobs
    follow. *)
Theorem C10_metrics_from_first_job clk run test fs o :
  run_err run = None ->
  parsed clk run test fs = inl o ->
  let r := fst (runTest clk run test fs) in
  match FioOutput.Jobs o with
  | [] => TestResult.Status r = FAILED /\ TestResult.FioJob r = None
  | job :: rest =>
      (TestResult.Status r = PASSED /\
       TestResult.FioJob r = Some job /\
       TestResult.ReadIOPS r = FioIO.IOPS (FioJobResult.Read job) /\
       TestResult.WriteIOPS r = FioIO.IOPS (FioJobResult.Write job) /\
       TestResult.TotalIOPS r
         = (FioIO.IOPS (FioJobResult.Read job) + FioIO.IOPS (FioJobResult.Write job))%float /\
       TestResult.ReadBWMBps r
         = (FioIO.BWBytes (FioJobResult.Read job) / 1024 / 1024)%float /\
       TestResult.WriteBWMBps r
         = (FioIO.BWBytes (FioJobResult.Write job) / 1024 / 1024)%float /\
       TestResult.ReadLatencyUs r
         = (FioLatNs.Mean (FioIO.LatNs (FioJobResult.Read job)) / 1000)%float /\
       TestResult.WriteLatencyUs r
         = (FioLatNs.Mean (FioIO.LatNs (FioJobResult.Write job)) / 1000)%float) /\
      forall run' fs' o' rest',
        run_err run' = None ->
        parsed clk run' test fs' = inl o' ->
        FioOutput.Jobs o' = job :: rest' ->
        FioOutput.DiskUtil o' = FioOutput.DiskUtil o ->
        fst (runTest clk run' test fs') = r
  end.
Proof.
  intros Herr Hdoc r. subst r.
  rewrite (runTest_parsed _ _ _ _ _ Herr Hdoc). cbn [fst].
  destruct (FioOutput.Jobs o) as [|job rest].
  - split; reflexivity.
  - split; [repeat split |].
    intros run' fs' o' rest' Herr' Hdoc' Hjobs' Hdu.
    rewrite (runTest_parsed _ _ _ _ _ Herr' Hdoc'), Hjobs', Hdu. reflexivity.
Qed.

(** The statement of C10 at a concrete run. *)
Lemma C10_metrics_from_first_job_witness :
  let two := doc_of [job_mixed; job_scenario] in
  let one := doc_of [job_mixed] in
  (run_err (ran (FioDoc two)) = None /\
   parsed clk0 (ran (FioDoc two)) test0 ∅ = inl two) /\
  TestResult.ReadIOPS (fst (runTest clk0 (ran (FioDoc two)) test0 ∅)) = 300%float /\
  fst (runTest clk0 (ran (FioDoc one)) test0 ∅)
    = fst (runTest clk0 (ran (FioDoc two)) test0 ∅).
Proof.
  cbv zeta.
  assert (H1 : run_err (ran (FioDoc (doc_of [job_mixed; job_scenario]))) = None)
    by reflexivity.
  assert (H2 : parsed clk0 (ran (FioDoc (doc_of [job_mixed; job_scenario]))) test0 ∅
               = inl (doc_of [job_mixed; job_scenario])) by (vm_compute; reflexivity).
  split; [auto |].
  pose proof (C10_metrics_from_first_job clk0 _ test0 ∅ _ H1 H2) as H.
  cbv zeta in H. cbn [FioOutput.Jobs doc_of] in H.
  destruct H as ((_ & _ & Hr & _) & Hsame).
  split; [exact Hr |].
  apply (Hsame (ran (FioDoc (doc_of [job_mixed]))) ∅ (doc_of [job_mixed]) []);
    [reflexivity | vm_compute; reflexivity | reflexivity | reflexivity].
Defined.

(** ** The scan for the highlights *)

Lemma status_eqb_passed r :
  String.eqb (TestResult.Status r) PASSED = true <-> TestResult.Status r = PASSED.
Proof. apply String.eqb_eq. Qed.

Lemma highlightStep_not_passed w r :
  TestResult.Status r <> PASSED -> highlightStep w r = w.
Proof.
  intros H. unfold highlightStep.
  destruct (String.eqb (TestResult.Status r) PASSED) eqn:E; [|reflexivity].
  now apply status_eqb_passed in E.
Qed.

Lemma countStep_not_passed c r :
  TestResult.Status r <> PASSED -> passed (countStep c r) = passed c.
Proof.
  intros H. unfold countStep.
  destruct (String.eqb (TestResult.Status r) PASSED) eqn:E; [|reflexivity].
  now apply status_eqb_passed in E.
Qed.

Lemma findHighlights_none_passed results w :
  (forall r, In r results -> TestResult.Status r <> PASSED) ->
  fold_left highlightStep results w = w.
Proof.
  revert w. induction results as [|a l IH]; intros w H; [reflexivity|].
  cbn [fold_left]. rewrite highlightStep_not_passed by (apply H; now left).
  apply IH. intros r Hr. apply H. now right.
Qed.

Lemma summaryCounts_none_passed results c :
  (forall r, In r results -> TestResult.Status r <> PASSED) ->
  passed (fold_left countStep results c) = passed c.
Proof.
  revert c. induction results as [|a l IH]; intros c H; [reflexivity|].
  cbn [fold_left]. rewrite IH by (intros r Hr; apply H; now right).
  apply countStep_not_passed, H. now left.
Qed.

(** C2 on the code.  With no Passed result the summary reports zero passed
    and the two "highest" highlights are empty with value zero, but the
    persisted lowest-latency highlight carries the scan's initial sentinel
    999999999 as its value; the interactive view tests for that sentinel and
    shows no highlight row at all. *)
Theorem C2_no_passed_highlights results :
  (forall r, In r results -> TestResult.Status r <> PASSED) ->
  let doc := buildJSONResults results in
  let h := JSONResults.PerformanceHighlights doc in
  JSONSummary.Passed (JSONResults.Summary doc) = 0 /\
  JSONPerformanceHighlights.HighestIOPS h = JSONHighlight.mk "" 0 "iops" /\
  JSONPerformanceHighlights.HighestBandwidth h = JSONHighlight.mk "" 0 "MB/s" /\
  JSONPerformanceHighlights.LowestLatency h = JSONHighlight.mk "" 999999999 "μs" /\
  highlightRows (findHighlights results) = [].
Proof.
  intros H doc h. subst h doc. unfold buildJSONResults, findHighlights, summaryCounts.
  rewrite (findHighlights_none_passed _ _ H).
  cbn [JSONResults.Summary JSONResults.PerformanceHighlights JSONSummary.Passed
       JSONPerformanceHighlights.HighestIOPS JSONPerformanceHighlights.HighestBandwidth
       JSONPerformanceHighlights.LowestLatency].
  rewrite (summaryCounts_none_passed _ _ H).
  repeat split.
Qed.

(** The statement of C2 at a concrete run. *)
Lemma C2_no_passed_highlights_witness :
  let failed := fst (runTest clk0 (mkFioRun (Some "exit status 1") "" None) test0 ∅) in
  let doc := buildJSONResults [failed] in
  (forall r, In r [failed] -> TestResult.Status r <> PASSED) /\
  JSONSummary.Passed (JSONResults.Summary doc) = 0 /\
  JSONHighlight.Value
    (JSONPerformanceHighlights.LowestLatency (JSONResults.PerformanceHighlights doc))
  = 999999999%float.
Proof.
  cbv zeta.
  assert (H : forall r,
             In r [fst (runTest clk0 (mkFioRun (Some "exit status 1") "" None) test0 ∅)] ->
             TestResult.Status r <> PASSED).
  { intros r [<-|[]]. vm_compute. discriminate. }
  split; [exact H |].
  destruct (C2_no_passed_highlights _ H) as (Hp & _ & _ & Hl & _).
  split; [exact Hp |]. now rewrite Hl.
Defined.

(** *** Highest IOPS *)

Lemma maxIOPS_step_take w r :
  TestResult.Status r = PASSED ->
  (TestResult.TotalIOPS (maxIOPS w) <? TestResult.TotalIOPS r)%float = true ->
  maxIOPS (highlightStep w r) = r.
Proof.
  intros Hs Hlt. unfold highlightStep.
  apply status_eqb_passed in Hs. rewrite Hs. cbn [maxIOPS]. now rewrite Hlt.
Qed.

Lemma maxIOPS_step_keep w r :
  (TestResult.Status r = PASSED ->
   (TestResult.TotalIOPS (maxIOPS w) <? TestResult.TotalIOPS r)%float = false) ->
  maxIOPS (highlightStep w r) = maxIOPS w.
Proof.
  intros H. unfold highlightStep.
  destruct (String.eqb (TestResult.Status r) PASSED) eqn:E; [|reflexivity].
  apply status_eqb_passed in E. cbn [maxIOPS]. now rewrite (H E).
Qed.

(** While every Passed result met so far is strictly below [v], so is the
    running winner. *)
Lemma maxIOPS_below pre : forall w v,
  (TestResult.TotalIOPS (maxIOPS w) <? v)%float = true ->
  (forall x, In x pre -> TestResult.Status x = PASSED ->
             (TestResult.TotalIOPS x <? v)%float = true) ->
  (TestResult.TotalIOPS (maxIOPS (fold_left highlightStep pre w)) <? v)%float = true.
Proof.
  induction pre as [|a l IH]; intros w v Hw Hpre; [exact Hw|].
  cbn [fold_left]. apply IH.
  - unfold highlightStep.
    destruct (String.eqb (TestResult.Status a) PASSED) eqn:E; [|exact Hw].
    apply status_eqb_passed in E. cbn [maxIOPS].
    destruct (TestResult.TotalIOPS (maxIOPS w) <? TestResult.TotalIOPS a)%float;
      [|exact Hw].
    apply Hpre; [now left | exact E].
  - intros x Hx. apply Hpre. now right.
Qed.

(** Once the winner is in place, results that are not strictly above it leave
    it there. *)
Lemma maxIOPS_stays post : forall w,
  (forall x, In x post -> TestResult.Status x = PASSED ->
             (TestResult.TotalIOPS (maxIOPS w) <? TestResult.TotalIOPS x)%float = false) ->
  maxIOPS (fold_left highlightStep post w) = maxIOPS w.
Proof.
  induction post as [|a l IH]; intros w H; [reflexivity|].
  cbn [fold_left].
  assert (Hk : maxIOPS (highlightStep w a) = maxIOPS w).
  { apply maxIOPS_step_keep. apply H. now left. }
  rewrite IH; [exact Hk|].
  intros x Hx Hs. rewrite Hk. apply H; [now right | exact Hs].
Qed.

(** C7, as stated, fails on the code: two Passed results share the maximal
    combined IOPS, here zero, and the highlight names neither of them; it
    keeps the empty reference it started from, because no result is strictly
    above the initial zero. *)
Lemma C7_counterexample :
  let a := result_named "trim_a" job_idle in
  let b := result_named "trim_b" job_idle in
  let h := JSONPerformanceHighlights.HighestIOPS
             (JSONResults.PerformanceHighlights (buildJSONResults [a; b])) in
  TestResult.Status a = PASSED /\ TestResult.Status b = PASSED /\
  TestResult.TotalIOPS a = TestResult.TotalIOPS b /\
  TestResult.TestName a = "trim_a" /\
  JSONHighlight.TestName h = "".
Proof. vm_compute. repeat split. Qed.

(** C7, amended: when the maximal combined IOPS is above zero, the
    highest-IOPS highlight is the first Passed result that attains it: if
    every Passed result before [r] is strictly below [r] and no Passed result
    after [r] is strictly above it (ties included), the scan selects [r], and
    the persisted highlight carries its name and its combined IOPS. *)
Theorem C7_highest_iops_keeps_first pre r post :
  TestResult.Status r = PASSED ->
  (0 <? TestResult.TotalIOPS r)%float = true ->
  (forall x, In x pre -> TestResult.Status x = PASSED ->
             (TestResult.TotalIOPS x <? TestResult.TotalIOPS r)%float = true) ->
  (forall x, In x post -> TestResult.Status x = PASSED ->
             (TestResult.TotalIOPS r <? TestResult.TotalIOPS x)%float = false) ->
  let results := (pre ++ r :: post)%list in
  maxIOPS (findHighlights results) = r /\
  JSONPerformanceHighlights.HighestIOPS
    (JSONResults.PerformanceHighlights (buildJSONResults results))
  = JSONHighlight.mk (TestResult.TestName r) (TestResult.TotalIOPS r) "iops".
Proof.
  intros Hs Hpos Hpre Hpost results.
  assert (Hmax : maxIOPS (findHighlights results) = r).
  { subst results. unfold findHighlights.
    rewrite fold_left_app. cbn [fold_left].
    set (w := fold_left highlightStep pre winners0).
    assert (Hw : (TestResult.TotalIOPS (maxIOPS w) <? TestResult.TotalIOPS r)%float = true).
    { subst w. apply maxIOPS_below; [exact Hpos | exact Hpre]. }
    pose proof (maxIOPS_step_take w r Hs Hw) as Htake.
    rewrite maxIOPS_stays; [exact Htake|].
    intros x Hx Hsx. rewrite Htake. now apply Hpost. }
  split; [exact Hmax|].
  unfold buildJSONResults.
  cbn [JSONResults.PerformanceHighlights JSONPerformanceHighlights.HighestIOPS].
  now rewrite Hmax.
Qed.

(** The statement of C7 at a concrete run. *)
Lemma C7_highest_iops_keeps_first_witness :
  let a := result_named "mixed_a" job_mixed in
  let b := result_named "mixed_b" job_mixed in
  (TestResult.Status a = PASSED /\
   (0 <? TestResult.TotalIOPS a)%float = true /\
   TestResult.TotalIOPS b = TestResult.TotalIOPS a) /\
  maxIOPS (findHighlights ([] ++ [a; b])%list) = a.
Proof.
  cbv zeta.
  assert (H1 : TestResult.Status (result_named "mixed_a" job_mixed) = PASSED)
    by reflexivity.
  assert (H2 : (0 <? TestResult.TotalIOPS (result_named "mixed_a" job_mixed))%float = true)
    by (vm_compute; reflexivity).
  assert (H3 : TestResult.TotalIOPS (result_named "mixed_b" job_mixed)
               = TestResult.TotalIOPS (result_named "mixed_a" job_mixed))
    by (vm_compute; reflexivity).
  split; [auto |].
  apply (C7_highest_iops_keeps_first [] (result_named "mixed_a" job_mixed)
           [result_named "mixed_b" job_mixed] H1 H2).
  - intros x [].
  - intros x [<-|[]] _. vm_compute. reflexivity.
Defined.

(** *** Lowest latency *)

Lemma minLatency_step w r :
  minLatency (highlightStep w r) = minLatency w \/
  (minLatency (highlightStep w r) = r /\ TestResult.Status r = PASSED /\
   (0 <? TestResult.AvgLatencyUs r)%float = true).
Proof.
  unfold highlightStep.
  destruct (String.eqb (TestResult.Status r) PASSED) eqn:E; [|now left].
  apply status_eqb_passed in E. cbn [minLatency].
  destruct (TestResult.AvgLatencyUs r <? TestResult.AvgLatencyUs (minLatency w))%float;
    cbn [andb]; [|now left].
  destruct (0 <? TestResult.AvgLatencyUs r)%float eqn:Hpos; [|now left].
  right. auto.
Qed.

(** The lowest-latency winner is the one the scan started from, or a Passed
    member of the sequence whose combined latency is above zero. *)
Lemma minLatency_scan results : forall w,
  let m := minLatency (fold_left highlightStep results w) in
  m = minLatency w \/
  (In m results /\ TestResult.Status m = PASSED /\
   (0 <? TestResult.AvgLatencyUs m)%float = true).
Proof.
  induction results as [|a l IH]; intros w; [now left|].
  cbn [fold_left]. cbv zeta.
  destruct (IH (highlightStep w a)) as [Hsame | (Hin & Hs & Hpos)].
  - rewrite Hsame.
    destruct (minLatency_step w a) as [Hkeep | (Htake & Hs & Hpos)].
    + now left.
    + right. rewrite Htake. split; [now left | auto].
  - right. split; [now right | auto].
Qed.

(** C8: the lowest-latency winner always has a combined latency strictly
    above zero and is either the scan's initial placeholder (no winner) or a
    Passed member of the sequence; hence a result whose combined latency is
    zero, negative or not a number is never the winner.  Both the persisted
    highlight and the interactive row are taken from this winner. *)
Theorem C8_lowest_latency_winner results :
  let w := minLatency (findHighlights results) in
  (0 <? TestResult.AvgLatencyUs w)%float = true /\
  (w = minLatency0 \/ (In w results /\ TestResult.Status w = PASSED)) /\
  (forall r, (0 <? TestResult.AvgLatencyUs r)%float = false -> w <> r) /\
  JSONPerformanceHighlights.LowestLatency
    (JSONResults.PerformanceHighlights (buildJSONResults results))
  = JSONHighlight.mk (TestResult.TestName w) (TestResult.AvgLatencyUs w) "μs" /\
  (forall row, In row (highlightRows (findHighlights results)) ->
     hd_error row = Some (Lit "Lowest Latency") ->
     row = [ Lit "Lowest Latency"; Lit (truncate32 (TestResult.TestName w));
             Sprintf "%.2f μs" (AFloat (TestResult.AvgLatencyUs w)) ]).
Proof.
  intros w.
  assert (Hpos : (0 <? TestResult.AvgLatencyUs w)%float = true).
  { subst w. unfold findHighlights.
    destruct (minLatency_scan results winners0) as [-> | (_ & _ & H)];
      [vm_compute; reflexivity | exact H]. }
  split; [exact Hpos|]. split; [|split; [|split]].
  - subst w. unfold findHighlights.
    destruct (minLatency_scan results winners0) as [-> | (Hin & Hs & _)];
      [now left | right; auto].
  - intros r Hr ->. rewrite Hr in Hpos. discriminate.
  - reflexivity.
  - intros row Hin Hhd. fold w. unfold highlightRows in Hin.
    apply in_app_or in Hin. destruct Hin as [Hin | Hin].
    { destruct (0 <? _)%float in Hin; [|contradiction].
      destruct Hin as [<-|[]]. discriminate. }
    apply in_app_or in Hin. destruct Hin as [Hin | Hin].
    { destruct (0 <? _)%float in Hin; [|contradiction].
      destruct Hin as [<-|[]]. discriminate. }
    destruct (_ <? sentinelLatency)%float in Hin; [|contradiction].
    destruct Hin as [<-|[]]. reflexivity.
Qed.

(** ** Percentiles in the two views *)




Lemma nonempty_test (n : nat) : (0 < n)%nat -> (0 <? Z.of_nat n)%Z = true.
Proof. intros H. apply Z.ltb_lt. lia. Qed.




(** ** Failed results in the two views *)

(** A Failed result of [runTest] is the initial result, with or without an
    error description; a description starts with the letter f. *)
Lemma runTest_failed_shape clk run test fs :
  TestResult.Status (fst (runTest clk run test fs)) = FAILED ->
  fst (runTest clk run test fs) = resultInit test (elapsed clk) \/
  exists rest,
    fst (runTest clk run test fs)
    = with_Error (resultInit test (elapsed clk)) (String "f" rest).
Proof.
  intros Hst.
  destruct (run_err run) as [err|] eqn:Herr.
  - rewrite (runTest_command_failed _ _ _ _ _ Herr). right. eexists. reflexivity.
  - destruct (parsed clk run test fs) as [o|err] eqn:Hp.
    + rewrite (runTest_parsed _ _ _ _ _ Herr Hp) in *. cbn [fst] in *.
      destruct (FioOutput.Jobs o) as [|job rest]; [now left|].
      rewrite extractMetrics_status in Hst. now apply status_distinct in Hst.
    + rewrite (runTest_parse_failed _ _ _ _ _ Herr Hp). right. eexists. reflexivity.
Qed.

(** C6, as stated, fails on the code: the persisted block of a Failed result
    does not omit its numeric metrics, it writes them as zeros. *)
Lemma C6_counterexample :
  let r := fst (runTest clk0 run_failed test0 ∅) in
  TestResult.Status r = FAILED /\
  member "iops" (persisted r) = Some (JNum 0) /\
  member "bandwidth_mbps" (persisted r) = Some (JNum 0) /\
  member "latency_us" (persisted r) = Some (JNum 0) /\
  member2 "iops_stats" "total" (persisted r) = Some (JNum 0).
Proof. vm_compute. repeat split. Qed.

(** C6, amended: for every Failed result of a run, the interactive view shows
    a table holding only the marked status row and, when there is an error
    description, the error row, and the comparison table shows the failure
    mark with "-" in place of the three metrics; the persisted block carries
    the status FAILED and the error description when there is one, and emits
    the numeric metrics iops, bandwidth_mbps and latency_us with the value
    zero. *)
Theorem C6_failed_result_rendering clk run test fs :
  let r := fst (runTest clk run test fs) in
  TestResult.Status r = FAILED ->
  displayTestResult r
    = [ Render (mkTable [ "Metric"; "Value" ] [ 40; 66 ]
                  ([ [ Lit "Status"; Sprintf "❌ %s" (AStr FAILED) ] ]
                   ++ match TestResult.Error r with
                      | Some e => [ [ Lit "Error"; Lit e ] ]
                      | None => []
                      end)) ] /\
  detailsRow r
    = [ Lit (FioTest.Name test); Lit "❌"; Lit "-"; Lit "-"; Lit "-";
        DurationRoundString (elapsed clk) ] /\
  member "status" (persisted r) = Some (JString (Lit FAILED)) /\
  member "error" (persisted r)
    = match TestResult.Error r with
      | Some e => Some (JString (Lit e))
      | None => None
      end /\
  member "iops" (persisted r) = Some (JNum 0) /\
  member "bandwidth_mbps" (persisted r) = Some (JNum 0) /\
  member "latency_us" (persisted r) = Some (JNum 0).
Proof.
  intros r Hst. subst r.
  destruct (runTest_failed_shape _ _ _ _ Hst) as [-> | (rest & ->)];
    repeat split.
Qed.

(** The statement of C6 at a concrete run. *)
Lemma C6_failed_result_rendering_witness :
  let r := fst (runTest clk0 run_failed test0 ∅) in
  TestResult.Status r = FAILED /\
  detailsRow r
    = [ Lit "randread"; Lit "❌"; Lit "-"; Lit "-"; Lit "-";
        DurationRoundString 10000000000 ] /\
  member "error" (persisted r)
    = Some (JString (Lit ("fio command failed: exit status 1" ++ newline
                          ++ "Output: fio: bad option"))).
Proof.
  cbv zeta.
  assert (H : TestResult.Status (fst (runTest clk0 run_failed test0 ∅)) = FAILED)
    by reflexivity.
  split; [exact H |].
  destruct (C6_failed_result_rendering clk0 run_failed test0 ∅ H)
    as (_ & Hrow & _ & Herr & _).
  split; [exact Hrow | exact Herr].
Defined.

(** ** The scenarios of the specification, evaluated *)

(** Two Passed results A (500000 IOPS, 2000 MB/s, 10 us) and B (700000 IOPS,
    1500 MB/s, 50 us): B has the highest IOPS, A the highest bandwidth and the
    lowest latency. *)
Example highlights_A_B :
  let w := findHighlights [result_A; result_B] in
  maxIOPS w = result_B /\ maxBW w = result_A /\ minLatency w = result_A.
Proof. vm_compute. repeat split. Qed.

(** Seven Passed runs and one failed command: the summary counts them, and
    the failure does not take part in the highlights. *)
Example summary_of_eight :
  let failed_run := fst (runTest clk0 run_failed test0 ∅) in
  let results :=
    [ result_A; result_B; result_A; failed_run; result_B; result_A; result_B; result_A ] in
  let doc := buildJSONResults results in
  JSONSummary.TotalTests (JSONResults.Summary doc) = 8 /\
  JSONSummary.Passed (JSONResults.Summary doc) = 7 /\
  JSONSummary.Failed (JSONResults.Summary doc) = 1 /\
  JSONSummary.TotalDuration (JSONResults.Summary doc) = DurationString 10000000000 /\
  maxIOPS (findHighlights results) = result_B.
Proof. vm_compute. repeat split. Qed.

(** The report of a run whose only test failed is written without error, and
    the file holds the sentinel as the lowest latency. *)
Example report_of_a_failed_run :
  let failed_run := fst (runTest clk0 run_failed test0 ∅) in
  let (err, fs) := saveResultsToJSON None [failed_run] "test_results.json" ∅ in
  err = None /\
  match fs !! "test_results.json" with
  | Some (ReportDoc j) =>
      match member "performance_highlights" j with
      | Some h => member2 "lowest_latency" "value" h = Some (JNum 999999999)
      | None => False
      end
  | _ => False
  end.
Proof. vm_compute. repeat split. Qed.

(** The interactive summary of the same run shows no highlight row. *)
Example summary_of_a_failed_run :
  let failed_run := fst (runTest clk0 run_failed test0 ∅) in
  In (Render (mkTable [ "Category"; "Test"; "Value" ] [ 40; 32; 31 ] []))
     (displaySummary [failed_run]).
Proof. vm_compute. tauto. Qed.

(** ** The order of binary64 numbers

    [<?] is a strict order on the numbers it relates; a NaN is related to
    nothing. *)

Ltac compare_cases :=
  repeat match goal with
  | H : context [Z.compare ?a ?b] |- _ => destruct (Z.compare_spec a b)
  | |- context [Z.compare ?a ?b] => destruct (Z.compare_spec a b)
  | H : context [Pos.compare_cont Eq ?a ?b] |- _ =>
      change (Pos.compare_cont Eq a b) with (Pos.compare a b) in *;
      destruct (Pos.compare_spec a b)
  | |- context [Pos.compare_cont Eq ?a ?b] =>
      change (Pos.compare_cont Eq a b) with (Pos.compare a b) in *;
      destruct (Pos.compare_spec a b)
  end.

Lemma SFltb_trans x y z : SFltb x y = true -> SFltb y z = true -> SFltb x z = true.
Proof.
  unfold SFltb, SFcompare.
  destruct x as [[]|[]| |[] mx ex], y as [[]|[]| |[] my ey], z as [[]|[]| |[] mz ez];
    try discriminate; try reflexivity; intros H1 H2;
    compare_cases; cbn in *; try discriminate; try reflexivity; subst; lia.
Qed.

Lemma SFltb_irrefl x : SFltb x x = false.
Proof.
  unfold SFltb, SFcompare.
  destruct x as [[]|[]| |[] mx ex]; try reflexivity;
    rewrite Z.compare_refl;
    change (Pos.compare_cont Eq mx mx) with (Pos.compare mx mx);
    rewrite Pos.compare_refl; reflexivity.
Qed.

Lemma float_ltb_trans x y z :
  (x <? y)%float = true -> (y <? z)%float = true -> (x <? z)%float = true.
Proof. rewrite !ltb_spec. apply SFltb_trans. Qed.

Lemma float_ltb_irrefl x : (x <? x)%float = false.
Proof. rewrite ltb_spec. apply SFltb_irrefl. Qed.

(** Transitivity read backwards: when [x] is below [y] but not below [z],
    [y] is not below [z] either. *)
Lemma float_not_above x y z :
  (x <? y)%float = true -> (x <? z)%float = false -> (y <? z)%float = false.
Proof.
  intros Hxy Hxz. destruct (y <? z)%float eqn:E; [|reflexivity].
  now rewrite (float_ltb_trans _ _ _ Hxy E) in Hxz.
Qed.

(** ** Summary statistics *)

Lemma is_passed_true r : is_passed r = true <-> TestResult.Status r = PASSED.
Proof. apply String.eqb_eq. Qed.

Lemma wrap64_add a b : wrap64 (wrap64 a + b) = wrap64 (a + b).
Proof.
  unfold wrap64. f_equal.
  replace ((a + 2 ^ 63) mod 2 ^ 64 - 2 ^ 63 + b + 2 ^ 63)
    with ((a + 2 ^ 63) mod 2 ^ 64 + b) by lia.
  rewrite Zplus_mod_idemp_l. f_equal. lia.
Qed.

Lemma wrap64_small z : - 2 ^ 63 <= z < 2 ^ 63 -> wrap64 z = z.
Proof. intros H. unfold wrap64. rewrite Z.mod_small; lia. Qed.

Lemma wrap64_range z : - 2 ^ 63 <= wrap64 z < 2 ^ 63.
Proof.
  unfold wrap64.
  pose proof (Z.mod_pos_bound (z + 2 ^ 63) (2 ^ 64) ltac:(lia)). lia.
Qed.

Lemma summaryCounts_from results : forall c,
  let c' := fold_left countStep results c in
  passed c' = passed c + Z.of_nat (countPassed results) /\
  failed c' = failed c + Z.of_nat (length results - countPassed results) /\
  wrap64 (totalDuration c') = wrap64 (totalDuration c + sumDurations results) /\
  (countPassed results <= length results)%nat.
Proof.
  induction results as [|a l IH]; intros c.
  - cbn. repeat split; try lia. f_equal. lia.
  - cbn [fold_left]. cbv zeta.
    destruct (IH (countStep c a)) as (Hp & Hf & Hd & Hle).
    rewrite Hp, Hf, Hd. unfold countPassed, sumDurations in *.
    cbn [List.filter map fold_right]. unfold countStep.
    fold (is_passed a). destruct (is_passed a);
      cbn [passed failed totalDuration length] in *;
      rewrite wrap64_add; repeat split; try lia; f_equal; lia.
Qed.

(** X1: the summary counts every result exactly once: passed is the number
    of results whose status is PASSED, failed is the number of all the others,
    and the two add up to the number of tests. *)
Theorem X1_summary_counts results :
  let c := summaryCounts results in
  passed c = Z.of_nat (countPassed results) /\
  failed c = Z.of_nat (length results) - Z.of_nat (countPassed results) /\
  passed c + failed c = Z.of_nat (length results) /\
  0 <= passed c /\ 0 <= failed c.
Proof.
  intros c. subst c. unfold summaryCounts.
  destruct (summaryCounts_from results (mkCounts 0 0 0)) as (Hp & Hf & _ & Hle).
  rewrite Hp, Hf. cbn [passed failed]. lia.
Qed.

Lemma totalDuration_wrapped results : forall c,
  totalDuration c = wrap64 (totalDuration c) ->
  totalDuration (fold_left countStep results c)
  = wrap64 (totalDuration (fold_left countStep results c)).
Proof.
  induction results as [|a l IH]; intros c Hc; [exact Hc|].
  cbn [fold_left]. apply IH. unfold countStep.
  destruct (String.eqb _ _); cbn [totalDuration];
    symmetry; apply wrap64_small, wrap64_range.
Qed.

(** X2: the total duration is the sum of the durations of all results, Failed
    ones included, in 64-bit signed arithmetic; it is the exact sum whenever
    that sum fits 64 bits. *)
Theorem X2_total_duration results :
  totalDuration (summaryCounts results) = wrap64 (sumDurations results) /\
  (- 2 ^ 63 <= sumDurations results < 2 ^ 63 ->
   totalDuration (summaryCounts results) = sumDurations results).
Proof.
  assert (H : totalDuration (summaryCounts results) = wrap64 (sumDurations results)).
  { unfold summaryCounts.
    rewrite totalDuration_wrapped by reflexivity.
    destruct (summaryCounts_from results (mkCounts 0 0 0)) as (_ & _ & Hd & _).
    exact Hd. }
  split; [exact H|]. intros Hfit. rewrite H. now apply wrap64_small.
Qed.

(** ** The highest IOPS and the highest bandwidth *)

Lemma scanMax_cons key cur a l :
  scanMax key cur (a :: l)
  = scanMax key (if is_passed a && (key cur <? key a)%float then a else cur) l.
Proof. reflexivity. Qed.

(** The two "highest" winners of [findHighlights] are such scans. *)
Lemma maxIOPS_scanMax results : forall w,
  maxIOPS (fold_left highlightStep results w)
  = scanMax TestResult.TotalIOPS (maxIOPS w) results.
Proof.
  induction results as [|a l IH]; intros w; [reflexivity|].
  cbn [fold_left]. rewrite IH, scanMax_cons. f_equal.
  unfold highlightStep, is_passed.
  destruct (String.eqb (TestResult.Status a) PASSED); reflexivity.
Qed.

Lemma maxBW_scanMax results : forall w,
  maxBW (fold_left highlightStep results w)
  = scanMax TestResult.TotalBWMBps (maxBW w) results.
Proof.
  induction results as [|a l IH]; intros w; [reflexivity|].
  cbn [fold_left]. rewrite IH, scanMax_cons. f_equal.
  unfold highlightStep, is_passed.
  destruct (String.eqb (TestResult.Status a) PASSED); reflexivity.
Qed.

(** What a scan returns: the winner it started from, or a Passed member
    strictly above it; and no Passed member is strictly above the result. *)
Lemma scanMax_spec key results : forall cur,
  let m := scanMax key cur results in
  (m = cur \/
   (In m results /\ TestResult.Status m = PASSED /\ (key cur <? key m)%float = true)) /\
  (forall x, In x results -> TestResult.Status x = PASSED ->
             (key m <? key x)%float = false).
Proof.
  induction results as [|a l IH]; intros cur; cbv zeta.
  - split; [now left | intros x []].
  - rewrite scanMax_cons.
    remember (if is_passed a && (key cur <? key a)%float then a else cur)
      as cur' eqn:Ecur'.
    destruct (IH cur') as (Hm & Hmax).
    remember (scanMax key cur' l) as m eqn:Em. clear Em.
    assert (Hstep : (cur' = cur /\ (is_passed a = true -> (key cur <? key a)%float = false))
                    \/ (cur' = a /\ TestResult.Status a = PASSED
                        /\ (key cur <? key a)%float = true)).
    { rewrite Ecur'. destruct (is_passed a) eqn:Ep; cbn [andb].
      - destruct (key cur <? key a)%float eqn:El.
        + right. apply is_passed_true in Ep. auto.
        + left. auto.
      - left. split; [reflexivity | discriminate]. }
    clear Ecur'. split.
    + destruct Hm as [-> | (Hin & Hs & Hlt)].
      * destruct Hstep as [(-> & _) | (-> & Hs & Hlt)]; [now left|].
        right. split; [now left | auto].
      * right. split; [now right|]. split; [exact Hs|].
        destruct Hstep as [(<- & _) | (Ha & _ & Hlt')]; [exact Hlt|].
        rewrite Ha in Hlt. exact (float_ltb_trans _ _ _ Hlt' Hlt).
    + intros x [<- | Hx] Hsx; [|now apply Hmax].
      assert (Hcur' : (key cur' <? key a)%float = false).
      { destruct Hstep as [(-> & Hno) | (-> & _)].
        - apply Hno. now apply is_passed_true.
        - apply float_ltb_irrefl. }
      destruct Hm as [-> | (_ & _ & Hlt)]; [exact Hcur'|].
      exact (float_not_above _ _ _ Hlt Hcur').
Qed.

(** Ties keep the first: a Passed result strictly above everything Passed
    before it (and above the initial winner) and not strictly below anything
    Passed after it is what the scan returns. *)
Lemma scanMax_first key pre r post cur :
  TestResult.Status r = PASSED ->
  (key cur <? key r)%float = true ->
  (forall x, In x pre -> TestResult.Status x = PASSED -> (key x <? key r)%float = true) ->
  (forall x, In x post -> TestResult.Status x = PASSED -> (key r <? key x)%float = false) ->
  scanMax key cur (pre ++ r :: post)%list = r.
Proof.
  revert cur. induction pre as [|a l IH]; intros cur Hs Hcur Hpre Hpost.
  - cbn [app]. rewrite scanMax_cons.
    apply is_passed_true in Hs. rewrite Hs, Hcur. cbn [andb].
    clear Hpre Hcur. induction post as [|b post IHp]; [reflexivity|].
    rewrite scanMax_cons.
    destruct (is_passed b) eqn:Eb; cbn [andb].
    + rewrite (Hpost b (or_introl eq_refl)) by now apply is_passed_true.
      apply IHp. intros x Hx. apply Hpost. now right.
    + apply IHp. intros x Hx. apply Hpost. now right.
  - cbn [app]. rewrite scanMax_cons. apply IH; [exact Hs| |
      intros x Hx; apply Hpre; now right | exact Hpost].
    destruct (is_passed a) eqn:Ea; cbn [andb]; [|exact Hcur].
    destruct (key cur <? key a)%float; [|exact Hcur].
    apply Hpre; [now left | now apply is_passed_true].
Qed.

(** X3: the highest-IOPS winner is a maximum.  It is either the empty
    placeholder the scan starts from, or a Passed member of the sequence whose
    combined IOPS is above zero; and no Passed result has a combined IOPS
    strictly above the winner's (in particular, when the placeholder is
    returned no Passed result has a combined IOPS above zero). *)
Theorem X3_highest_iops_is_maximum results :
  let w := maxIOPS (findHighlights results) in
  (w = TestResult.zero \/
   (In w results /\ TestResult.Status w = PASSED /\
    (0 <? TestResult.TotalIOPS w)%float = true)) /\
  (forall x, In x results -> TestResult.Status x = PASSED ->
             (TestResult.TotalIOPS w <? TestResult.TotalIOPS x)%float = false).
Proof.
  intros w. subst w. unfold findHighlights. rewrite maxIOPS_scanMax.
  exact (scanMax_spec TestResult.TotalIOPS results (maxIOPS winners0)).
Qed.

(** X4: the highest-bandwidth winner is a maximum in the same sense: the
    empty placeholder, or a Passed member with a combined bandwidth above
    zero, and no Passed result is strictly above it; the persisted highlight
    carries its name and bandwidth. *)
Theorem X4_highest_bandwidth_is_maximum results :
  let w := maxBW (findHighlights results) in
  (w = TestResult.zero \/
   (In w results /\ TestResult.Status w = PASSED /\
    (0 <? TestResult.TotalBWMBps w)%float = true)) /\
  (forall x, In x results -> TestResult.Status x = PASSED ->
             (TestResult.TotalBWMBps w <? TestResult.TotalBWMBps x)%float = false) /\
  JSONPerformanceHighlights.HighestBandwidth
    (JSONResults.PerformanceHighlights (buildJSONResults results))
  = JSONHighlight.mk (TestResult.TestName w) (TestResult.TotalBWMBps w) "MB/s".
Proof.
  intros w. subst w. unfold findHighlights. rewrite maxBW_scanMax.
  destruct (scanMax_spec TestResult.TotalBWMBps results (maxBW winners0)) as (H1 & H2).
  split; [exact H1|]. split; [exact H2|].
  unfold buildJSONResults, findHighlights.
  cbn [JSONResults.PerformanceHighlights JSONPerformanceHighlights.HighestBandwidth].
  now rewrite maxBW_scanMax.
Qed.

(** X5: ties for the highest bandwidth keep the first.  When the maximal
    combined bandwidth is above zero, the winner is the first Passed result
    that attains it: every Passed result before [r] strictly below [r], none
    after it strictly above. *)
Theorem X5_highest_bandwidth_keeps_first pre r post :
  TestResult.Status r = PASSED ->
  (0 <? TestResult.TotalBWMBps r)%float = true ->
  (forall x, In x pre -> TestResult.Status x = PASSED ->
             (TestResult.TotalBWMBps x <? TestResult.TotalBWMBps r)%float = true) ->
  (forall x, In x post -> TestResult.Status x = PASSED ->
             (TestResult.TotalBWMBps r <? TestResult.TotalBWMBps x)%float = false) ->
  maxBW (findHighlights (pre ++ r :: post)%list) = r.
Proof.
  intros Hs Hpos Hpre Hpost. unfold findHighlights. rewrite maxBW_scanMax.
  now apply scanMax_first.
Qed.

(** X5 at two results of equal bandwidth. *)
Lemma X5_highest_bandwidth_keeps_first_witness :
  let a := result_named "mixed_a" job_mixed in
  let b := result_named "mixed_b" job_mixed in
  (TestResult.Status a = PASSED /\
   (0 <? TestResult.TotalBWMBps a)%float = true /\
   TestResult.TotalBWMBps b = TestResult.TotalBWMBps a) /\
  maxBW (findHighlights ([] ++ [a; b])%list) = a.
Proof.
  cbv zeta.
  assert (H1 : TestResult.Status (result_named "mixed_a" job_mixed) = PASSED)
    by reflexivity.
  assert (H2 : (0 <? TestResult.TotalBWMBps (result_named "mixed_a" job_mixed))%float
               = true) by (vm_compute; reflexivity).
  assert (H3 : TestResult.TotalBWMBps (result_named "mixed_b" job_mixed)
               = TestResult.TotalBWMBps (result_named "mixed_a" job_mixed))
    by (vm_compute; reflexivity).
  split; [auto |].
  apply (X5_highest_bandwidth_keeps_first [] (result_named "mixed_a" job_mixed)
           [result_named "mixed_b" job_mixed] H1 H2).
  - intros x [].
  - intros x [<-|[]] _. vm_compute. reflexivity.
Defined.

(** ** The lowest latency *)

Lemma minLatency_step_cases w r :
  (minLatency (highlightStep w r) = minLatency w /\
   (qualifies r ->
    (TestResult.AvgLatencyUs r <? TestResult.AvgLatencyUs (minLatency w))%float = false))
  \/ (minLatency (highlightStep w r) = r /\ qualifies r /\
      (TestResult.AvgLatencyUs r <? TestResult.AvgLatencyUs (minLatency w))%float = true).
Proof.
  unfold highlightStep, qualifies.
  destruct (String.eqb (TestResult.Status r) PASSED) eqn:E.
  - apply status_eqb_passed in E. cbn [minLatency].
    destruct (TestResult.AvgLatencyUs r <? TestResult.AvgLatencyUs (minLatency w))%float
      eqn:Hlt; cbn [andb].
    + destruct (0 <? TestResult.AvgLatencyUs r)%float eqn:Hpos.
      * right. auto.
      * left. split; [reflexivity|]. intros (_ & H). congruence.
    + left. auto.
  - left. split; [reflexivity|]. intros (Hs & _).
    apply status_eqb_passed in Hs. congruence.
Qed.

(** What the lowest-latency scan returns: the winner it started from, or a
    qualifying member strictly below it; and no qualifying member is strictly
    below the result. *)
Lemma minLatency_spec results : forall w,
  let m := minLatency (fold_left highlightStep results w) in
  (m = minLatency w \/
   (In m results /\ qualifies m /\
    (TestResult.AvgLatencyUs m <? TestResult.AvgLatencyUs (minLatency w))%float = true)) /\
  (forall x, In x results -> qualifies x ->
             (TestResult.AvgLatencyUs x <? TestResult.AvgLatencyUs m)%float = false).
Proof.
  induction results as [|a l IH]; intros w; cbv zeta.
  - split; [now left | intros x []].
  - cbn [fold_left].
    destruct (IH (highlightStep w a)) as (Hm & Hmin).
    remember (minLatency (fold_left highlightStep l (highlightStep w a))) as m eqn:Em.
    clear Em.
    pose proof (minLatency_step_cases w a) as Hstep.
    remember (minLatency (highlightStep w a)) as cur' eqn:Ec. clear Ec.
    split.
    + destruct Hm as [-> | (Hin & Hq & Hlt)].
      * destruct Hstep as [(-> & _) | (-> & Hq & Hlt)]; [now left|].
        right. split; [now left | auto].
      * right. split; [now right|]. split; [exact Hq|].
        destruct Hstep as [(<- & _) | (Ha & _ & Hlt')]; [exact Hlt|].
        rewrite Ha in Hlt. exact (float_ltb_trans _ _ _ Hlt Hlt').
    + intros x [<- | Hx] Hqx; [|now apply Hmin].
      assert (Hcur' : (TestResult.AvgLatencyUs a <? TestResult.AvgLatencyUs cur')%float
                      = false).
      { destruct Hstep as [(-> & Hno) | (-> & _)];
          [now apply Hno | apply float_ltb_irrefl]. }
      destruct Hm as [-> | (_ & _ & Hlt)]; [exact Hcur'|].
      destruct (TestResult.AvgLatencyUs a <? TestResult.AvgLatencyUs m)%float eqn:E;
        [|reflexivity].
      now rewrite (float_ltb_trans _ _ _ E Hlt) in Hcur'.
Qed.

(** X6: the lowest-latency winner is a minimum.  It is either the placeholder
    the scan starts from, or a qualifying member (Passed, latency above zero)
    whose latency is strictly below the sentinel 999999999; no qualifying
    result has a latency strictly below the winner's; and as soon as some
    qualifying result is below the sentinel, the winner is a member of the
    sequence.  A result at or above the sentinel can therefore never win. *)
Theorem X6_lowest_latency_is_minimum results :
  let w := minLatency (findHighlights results) in
  (w = minLatency0 \/
   (In w results /\ qualifies w /\
    (TestResult.AvgLatencyUs w <? sentinelLatency)%float = true)) /\
  (forall x, In x results -> qualifies x ->
             (TestResult.AvgLatencyUs x <? TestResult.AvgLatencyUs w)%float = false) /\
  (forall x, In x results -> qualifies x ->
             (TestResult.AvgLatencyUs x <? sentinelLatency)%float = true ->
             In w results /\ qualifies w).
Proof.
  intros w. subst w. unfold findHighlights.
  destruct (minLatency_spec results winners0) as (Hm & Hmin).
  cbn [minLatency winners0] in Hm.
  split; [exact Hm|]. split; [exact Hmin|].
  intros x Hx Hq Hlt.
  destruct Hm as [Heq | (Hin & Hqw & _)]; [|auto].
  specialize (Hmin x Hx Hq). rewrite Heq in Hmin.
  cbn [minLatency0 TestResult.AvgLatencyUs] in Hmin. congruence.
Qed.

Lemma minLatency_step_keep w r :
  (qualifies r ->
   (TestResult.AvgLatencyUs r <? TestResult.AvgLatencyUs (minLatency w))%float = false) ->
  minLatency (highlightStep w r) = minLatency w.
Proof.
  intros H. destruct (minLatency_step_cases w r) as [(He & _) | (_ & Hq & Hlt)];
    [exact He|]. rewrite (H Hq) in Hlt. discriminate.
Qed.

Lemma minLatency_stays post : forall w,
  (forall x, In x post -> qualifies x ->
     (TestResult.AvgLatencyUs x <? TestResult.AvgLatencyUs (minLatency w))%float = false) ->
  minLatency (fold_left highlightStep post w) = minLatency w.
Proof.
  induction post as [|a l IH]; intros w H; [reflexivity|].
  cbn [fold_left].
  assert (Hk : minLatency (highlightStep w a) = minLatency w).
  { apply minLatency_step_keep. apply H. now left. }
  rewrite IH; [exact Hk|].
  intros x Hx Hq. rewrite Hk. apply H; [now right | exact Hq].
Qed.

Lemma minLatency_above pre : forall w v,
  (v <? TestResult.AvgLatencyUs (minLatency w))%float = true ->
  (forall x, In x pre -> qualifies x -> (v <? TestResult.AvgLatencyUs x)%float = true) ->
  (v <? TestResult.AvgLatencyUs (minLatency (fold_left highlightStep pre w)))%float = true.
Proof.
  induction pre as [|a l IH]; intros w v Hw Hpre; [exact Hw|].
  cbn [fold_left]. apply IH; [|intros x Hx; apply Hpre; now right].
  destruct (minLatency_step_cases w a) as [(-> & _) | (-> & Hq & _)]; [exact Hw|].
  apply Hpre; [now left | exact Hq].
Qed.

(** X7: ties for the lowest latency keep the first.  A qualifying result [r]
    below the sentinel, strictly below every qualifying result before it and
    with no qualifying result after it strictly below, is the winner. *)
Theorem X7_lowest_latency_keeps_first pre r post :
  qualifies r ->
  (TestResult.AvgLatencyUs r <? sentinelLatency)%float = true ->
  (forall x, In x pre -> qualifies x ->
     (TestResult.AvgLatencyUs r <? TestResult.AvgLatencyUs x)%float = true) ->
  (forall x, In x post -> qualifies x ->
     (TestResult.AvgLatencyUs x <? TestResult.AvgLatencyUs r)%float = false) ->
  minLatency (findHighlights (pre ++ r :: post)%list) = r.
Proof.
  intros Hq Hsent Hpre Hpost. unfold findHighlights.
  rewrite fold_left_app. cbn [fold_left].
  set (w := fold_left highlightStep pre winners0).
  assert (Hw : (TestResult.AvgLatencyUs r <? TestResult.AvgLatencyUs (minLatency w))%float
               = true).
  { subst w. apply minLatency_above; [exact Hsent | exact Hpre]. }
  assert (Htake : minLatency (highlightStep w r) = r).
  { destruct (minLatency_step_cases w r) as [(_ & Hno) | (He & _)]; [|exact He].
    rewrite (Hno Hq) in Hw. discriminate. }
  rewrite minLatency_stays; [exact Htake|].
  intros x Hx Hqx. rewrite Htake. now apply Hpost.
Qed.

(** X7 at two results of equal latency. *)
Lemma X7_lowest_latency_keeps_first_witness :
  let a := result_named "mixed_a" job_mixed in
  let b := result_named "mixed_b" job_mixed in
  (qualifies a /\
   (TestResult.AvgLatencyUs a <? sentinelLatency)%float = true /\
   TestResult.AvgLatencyUs b = TestResult.AvgLatencyUs a) /\
  minLatency (findHighlights ([] ++ [a; b])%list) = a.
Proof.
  cbv zeta.
  assert (H1 : qualifies (result_named "mixed_a" job_mixed))
    by (split; vm_compute; reflexivity).
  assert (H2 : (TestResult.AvgLatencyUs (result_named "mixed_a" job_mixed)
                <? sentinelLatency)%float = true) by (vm_compute; reflexivity).
  assert (H3 : TestResult.AvgLatencyUs (result_named "mixed_b" job_mixed)
               = TestResult.AvgLatencyUs (result_named "mixed_a" job_mixed))
    by (vm_compute; reflexivity).
  split; [auto |].
  apply (X7_lowest_latency_keeps_first [] (result_named "mixed_a" job_mixed)
           [result_named "mixed_b" job_mixed] H1 H2).
  - intros x [].
  - intros x [<-|[]] _. vm_compute. reflexivity.
Defined.

(** ** [runTest]: what every path keeps *)

Lemma runTest_cases clk run test fs :
  let r0 := resultInit test (elapsed clk) in
  let fs1 := exec_fio run (tmpOf clk test) fs in
  (exists e, runTest clk run test fs = (with_Error r0 e, fs1)) \/
  (runTest clk run test fs = (r0, os_Remove (tmpOf clk test) fs1) /\
   exists o, run_err run = None /\ parsed clk run test fs = inl o /\
             FioOutput.Jobs o = []) \/
  (exists o job rest,
     run_err run = None /\ parsed clk run test fs = inl o /\
     FioOutput.Jobs o = job :: rest /\
     runTest clk run test fs
     = (extractMetrics r0 job (FioOutput.DiskUtil o), os_Remove (tmpOf clk test) fs1)).
Proof.
  cbv zeta.
  destruct (run_err run) as [err|] eqn:Herr.
  - left. eexists. apply (runTest_command_failed _ _ _ _ _ Herr).
  - destruct (parsed clk run test fs) as [o|err] eqn:Hp.
    + rewrite (runTest_parsed _ _ _ _ _ Herr Hp).
      destruct (FioOutput.Jobs o) as [|job rest] eqn:Hj.
      * right. left. split; [reflexivity|]. now exists o.
      * right. right. now exists o, job, rest.
    + left. eexists. apply (runTest_parse_failed _ _ _ _ _ Herr Hp).
Qed.

Lemma runTest_passed_iff clk run test fs :
  TestResult.Status (fst (runTest clk run test fs)) = PASSED <->
  exists o job rest, run_err run = None /\ parsed clk run test fs = inl o /\
                     FioOutput.Jobs o = job :: rest.
Proof.
  split.
  - destruct (runTest_cases clk run test fs)
      as [(e & ->) | [(-> & _) | (o & job & rest & Herr & Hp & Hj & _)]];
      cbn [fst]; try discriminate.
    intros _. now exists o, job, rest.
  - intros (o & job & rest & Herr & Hp & Hj).
    now rewrite (runTest_parsed _ _ _ _ _ Herr Hp), Hj.
Qed.

(** X8: whatever happens to a run, its result carries the name and the
    description of its test and the measured duration, and its status is
    PASSED or FAILED.  It is PASSED exactly when the command returned no
    error, the document parsed and has at least one job; a Passed result has
    no error description and carries its job, a Failed result carries neither
    a job nor disk records. *)
Theorem X8_runTest_result_invariants clk run test fs :
  let r := fst (runTest clk run test fs) in
  TestResult.TestName r = FioTest.Name test /\
  TestResult.Description r = FioTest.Description test /\
  TestResult.Duration r = elapsed clk /\
  (TestResult.Status r = PASSED \/ TestResult.Status r = FAILED) /\
  (TestResult.Status r = PASSED <->
   exists o job rest, run_err run = None /\ parsed clk run test fs = inl o /\
                      FioOutput.Jobs o = job :: rest) /\
  (TestResult.Status r = PASSED ->
   TestResult.Error r = None /\ exists j, TestResult.FioJob r = Some j) /\
  (TestResult.Status r = FAILED ->
   TestResult.FioJob r = None /\ TestResult.DiskUtil r = []).
Proof.
  cbv zeta. pose proof (runTest_passed_iff clk run test fs) as Hiff.
  destruct (runTest_cases clk run test fs)
    as [(e & He) | [(He & _) | (o & job & rest & _ & _ & _ & He)]];
    rewrite He in *; cbn [fst] in *.
  - repeat split; try (now right); try discriminate; apply Hiff.
  - repeat split; try (now right); try discriminate; apply Hiff.
  - repeat split; try (now left); try discriminate; try apply Hiff.
    now exists job.
Qed.





(** X11: the persisted block of a run's result is consistent with itself:
    the top-level iops is the total of the IOPS statistics, which is the
    binary64 sum of the read and write IOPS in the same block, and likewise
    for the bandwidth; the top-level latency is one of the two mean total
    latencies of the block or their binary64 mean. *)
Theorem X11_persisted_block_is_consistent clk run test fs :
  let t := testResultOf (fst (runTest clk run test fs)) in
  let iops := JSONTestResult.IOPSStats t in
  let bw := JSONTestResult.BandwidthStats t in
  let lr := JSONLatencyMetric.Avg (JSONLatencyDetail.TotalLat
              (JSONLatencyStats.Read (JSONTestResult.LatencyStats t))) in
  let lw := JSONLatencyMetric.Avg (JSONLatencyDetail.TotalLat
              (JSONLatencyStats.Write (JSONTestResult.LatencyStats t))) in
  JSONTestResult.IOPS t = JSONIOPSStats.Total iops /\
  JSONIOPSStats.Total iops
  = (JSONIOPSDetail.IOPS (JSONIOPSStats.Read iops)
     + JSONIOPSDetail.IOPS (JSONIOPSStats.Write iops))%float /\
  JSONTestResult.BandwidthMBps t = JSONBandwidthStats.Total bw /\
  JSONBandwidthStats.Total bw
  = (JSONBandwidthDetail.BandwidthMBps (JSONBandwidthStats.Read bw)
     + JSONBandwidthDetail.BandwidthMBps (JSONBandwidthStats.Write bw))%float /\
  (JSONTestResult.LatencyUs t = lr \/ JSONTestResult.LatencyUs t = lw \/
   JSONTestResult.LatencyUs t = ((lr + lw) / 2)%float).
Proof.
  cbv zeta.
  destruct (runTest_cases clk run test fs)
    as [(e & ->) | [(-> & _) | (o & job & rest & _ & _ & _ & ->)]];
    cbn [fst].
  - repeat split. now left.
  - repeat split. now left.
  - unfold testResultOf, extractMetrics. cbn.
    repeat split.
    destruct (0 <? FioIO.IOPS (FioJobResult.Read job))%float,
             (0 <? FioIO.IOPS (FioJobResult.Write job))%float; cbn; auto.
Qed.

(** ** Writing the report *)


Lemma json_supported_array l :
  json_supported (JArray l) = forallb json_supported l.
Proof.
  induction l as [|x l IH]; [reflexivity|].
  cbn [forallb]. rewrite <- IH. reflexivity.
Qed.

Lemma json_supported_object3 k1 v1 k2 v2 k3 v3 :
  json_supported (JObject [ (k1, v1); (k2, v2); (k3, v3) ])
  = json_supported v1 && (json_supported v2 && (json_supported v3 && true)).
Proof. reflexivity. Qed.

Lemma summary_supported s : json_supported (JSONSummary.marshal s) = true.
Proof. reflexivity. Qed.

(** The three numbers of a result that the highlights may copy are finite
    when its own block can be marshalled. *)
Lemma persisted_supported_metrics r :
  json_supported (persisted r) = true ->
  is_finite (TestResult.TotalIOPS r) = true /\
  is_finite (TestResult.TotalBWMBps r) = true /\
  is_finite (TestResult.AvgLatencyUs r) = true.
Proof.
  unfold persisted, JSONTestResult.marshal, testResultOf.
  cbn [json_supported app JSONTestResult.TestName JSONTestResult.Description
       JSONTestResult.Status JSONTestResult.Duration JSONTestResult.IOPS
       JSONTestResult.BandwidthMBps JSONTestResult.LatencyUs].
  intros H. repeat (apply andb_true_iff in H; destruct H as (? & H)).
  cbn [andb] in *. auto.
Qed.

Lemma highlights_supported results :
  (forall r, In r results -> json_supported (persisted r) = true) ->
  json_supported
    (JSONPerformanceHighlights.marshal
       (JSONResults.PerformanceHighlights (buildJSONResults results))) = true.
Proof.
  intros H. unfold buildJSONResults, findHighlights.
  cbn [JSONResults.PerformanceHighlights JSONPerformanceHighlights.marshal
       JSONPerformanceHighlights.HighestIOPS JSONPerformanceHighlights.HighestBandwidth
       JSONPerformanceHighlights.LowestLatency JSONHighlight.marshal
       JSONHighlight.TestName JSONHighlight.Value JSONHighlight.Unit json_supported andb].
  rewrite maxIOPS_scanMax, maxBW_scanMax.
  assert (H1 : is_finite (TestResult.TotalIOPS
                 (scanMax TestResult.TotalIOPS (maxIOPS winners0) results)) = true).
  { destruct (scanMax_spec TestResult.TotalIOPS results (maxIOPS winners0))
      as ([-> | (Hin & _)] & _); [reflexivity|].
    now apply persisted_supported_metrics, H. }
  assert (H2 : is_finite (TestResult.TotalBWMBps
                 (scanMax TestResult.TotalBWMBps (maxBW winners0) results)) = true).
  { destruct (scanMax_spec TestResult.TotalBWMBps results (maxBW winners0))
      as ([-> | (Hin & _)] & _); [reflexivity|].
    now apply persisted_supported_metrics, H. }
  assert (H3 : is_finite (TestResult.AvgLatencyUs
                 (minLatency (fold_left highlightStep results winners0))) = true).
  { destruct (minLatency_spec results winners0) as ([-> | (Hin & _)] & _);
      [reflexivity|].
    now apply persisted_supported_metrics, H. }
  now rewrite H1, H2, H3.
Qed.

(** X13: the report can be written whenever each result taken alone could
    be: the summary and the highlights never bring in a number that
    [json.MarshalIndent] refuses.  With a write that succeeds,
    [saveResultsToJSON] returns no error if and only if the block of every
    result holds finite numbers only. *)
Theorem X13_report_supported_iff_results results filename (fs : FS) :
  fst (saveResultsToJSON None results filename fs) = None <->
  (forall r, In r results -> json_supported (persisted r) = true).
Proof.
  assert (Hdoc : json_supported (JSONResults.marshal (buildJSONResults results))
                 = forallb json_supported (map persisted results)
                   && json_supported
                        (JSONPerformanceHighlights.marshal
                           (JSONResults.PerformanceHighlights (buildJSONResults results)))).
  { unfold JSONResults.marshal.
    rewrite json_supported_object3, summary_supported, json_supported_array.
    unfold buildJSONResults at 1. cbn [JSONResults.TestResults andb].
    rewrite map_map. fold persisted. now rewrite andb_true_r. }
  unfold saveResultsToJSON. rewrite Hdoc. split.
  - intros Hok r Hr.
    destruct (forallb json_supported (map persisted results)) eqn:Hall;
      [|cbn in Hok; discriminate].
    rewrite forallb_forall in Hall. apply Hall. now apply in_map.
  - intros H.
    assert (Hall : forallb json_supported (map persisted results) = true).
    { apply forallb_forall. intros j Hj. apply in_map_iff in Hj.
      destruct Hj as (r & <- & Hr). now apply H. }
    now rewrite Hall, (highlights_supported _ H).
Qed.

(** X14: a Failed result never stands in the way of the report: its block
    holds finite numbers only. *)
Theorem X14_failed_result_is_marshalled clk run test fs :
  TestResult.Status (fst (runTest clk run test fs)) = FAILED ->
  json_supported (persisted (fst (runTest clk run test fs))) = true.
Proof.
  intros Hst.
  destruct (runTest_failed_shape _ _ _ _ Hst) as [-> | (rest & ->)]; reflexivity.
Qed.

(** X14 at a run whose command failed. *)
Lemma X14_failed_result_is_marshalled_witness :
  TestResult.Status (fst (runTest clk0 run_failed test0 ∅)) = FAILED /\
  json_supported (persisted (fst (runTest clk0 run_failed test0 ∅))) = true.
Proof.
  assert (H : TestResult.Status (fst (runTest clk0 run_failed test0 ∅)) = FAILED)
    by reflexivity.
  split; [exact H|].
  exact (X14_failed_result_is_marshalled clk0 run_failed test0 ∅ H).
Defined.

(** ** Names in the highlights table *)






(** ** Percentile rows *)

Lemma percentileRows_as_map (m : gmap string float) (labels : list string) :
  flat_map
    (fun p =>
       match m !! p with
       | Some val => [ [ Sprintf "p%.2f" (AParseFloat p); f2 (val / 1000)%float ] ]
       | None => []
       end) labels
  = map (fun pv => percentileRow (fst pv) (snd pv))
        (omap (fun p => match m !! p with Some val => Some (p, val) | None => None end)
              labels).
Proof.
  induction labels as [|p l IH]; [reflexivity|].
  cbn [flat_map omap list_omap]. destruct (m !! p); cbn; now rewrite IH.
Qed.

Lemma present_sublist (m : gmap string float) (labels : list string) :
  sublist
    (map fst (omap (fun p => match m !! p with Some val => Some (p, val) | None => None end)
                   labels))
    labels.
Proof.
  induction labels as [|p l IH]; [constructor|].
  cbn [omap list_omap]. destruct (m !! p); cbn; now constructor.
Qed.

Lemma present_lookup (m : gmap string float) (labels : list string) p val :
  In (p, val)
     (omap (fun p => match m !! p with Some val => Some (p, val) | None => None end) labels)
  <-> In p labels /\ m !! p = Some val.
Proof.
  induction labels as [|q l IH]; [cbn; tauto|].
  cbn [omap list_omap In]. destruct (m !! q) as [v|] eqn:E; cbn [In]; rewrite IH.
  - split.
    + intros [Heq | (Hin & Hm)]; [injection Heq as <- <-; auto | auto].
    + intros ([<- | Hin] & Hm); [left; congruence | auto].
  - split.
    + intros (Hin & Hm). auto.
    + intros ([<- | Hin] & Hm); [congruence | auto].
Qed.

(** X16: the percentile table lists the canonical labels found in the raw
    mapping, each once with its value divided by 1000, in the canonical order
    whatever the order of the mapping: its rows are the rows of the present
    labels, the present labels are a sublist of the seventeen canonical ones,
    and a label is among them exactly when it is canonical and in the
    mapping.  So the table never has more than seventeen rows. *)
Theorem X16_percentile_rows_in_canonical_order (m : gmap string float) :
  percentileRows m
  = map (fun pv => percentileRow (fst pv) (snd pv)) (presentPercentiles m) /\
  sublist (map fst (presentPercentiles m)) percentiles /\
  (forall p val, In (p, val) (presentPercentiles m) <->
                 In p percentiles /\ m !! p = Some val) /\
  (length (percentileRows m) <= 17)%nat.
Proof.
  assert (H1 := percentileRows_as_map m percentiles).
  assert (H2 := present_sublist m percentiles).
  fold (presentPercentiles m) in H1, H2. fold (percentileRows m) in H1.
  split; [exact H1|]. split; [exact H2|]. split; [apply present_lookup|].
  rewrite H1, length_map.
  apply sublist_length in H2. rewrite length_map in H2. exact H2.
Qed.

Lemma percentiles_all_absent (m : gmap string float) :
  (forall p, In p percentiles -> m !! p = None) ->
  percentileRows m = [] /\ percentilesOf m = JSONPercentiles.zero.
Proof.
  intros H.
  assert (Hrows : forall labels, (forall p, In p labels -> m !! p = None) ->
            flat_map
              (fun p =>
                 match m !! p with
                 | Some val => [ [ Sprintf "p%.2f" (AParseFloat p); f2 (val / 1000)%float ] ]
                 | None => []
                 end) labels = []).
  { induction labels as [|p l IH]; intros Hl; [reflexivity|].
    cbn [flat_map]. rewrite (Hl p (or_introl eq_refl)). cbn [app].
    apply IH. intros q Hq. apply Hl. now right. }
  split; [apply (Hrows percentiles H)|].
  unfold percentilesOf, getPercentile.
  rewrite !H by (unfold percentiles; cbn [In]; tauto).
  reflexivity.
Qed.

(** X17: a mapping that is not empty but holds none of the canonical labels
    still makes both views show percentiles that were never measured: the
    interactive view renders the percentile table with no row at all, and
    the persisted block carries all seventeen members with the value zero. *)
Theorem X17_only_foreign_percentiles r j :
  TestResult.FioJob r = Some j ->
  TestResult.Status r = PASSED ->
  (0 < size (readPercentiles j))%nat ->
  (forall p, In p percentiles -> readPercentiles j !! p = None) ->
  In (Render (mkTable [ "Percentile"; "Latency (μs)" ] [ 40; 66 ] []))
     (displayTestResult r) /\
  member "latency_percentiles" (persisted r)
  = Some (JSONPercentiles.marshal JSONPercentiles.zero).
Proof.
  intros Hjob Hst Hsize Habs.
  pose proof (nonempty_test _ Hsize) as Hne.
  destruct (percentiles_all_absent _ Habs) as (Hrows & Hzero).
  split.
  - unfold displayTestResult. rewrite Hst, Hjob.
    cbn [String.eqb Ascii.eqb Bool.eqb PASSED FAILED].
    apply in_or_app. right. apply in_or_app. left.
    fold (readPercentiles j). rewrite Hne, Hrows. right. now left.
  - unfold persisted, JSONTestResult.marshal, member, testResultOf.
    cbn [JSONTestResult.Percentiles assoc app String.eqb Ascii.eqb Bool.eqb].
    rewrite Hjob. fold (readPercentiles j). now rewrite Hne, Hzero.
Qed.

(** X17 at a job whose only percentile is p99.999. *)
Lemma X17_only_foreign_percentiles_witness :
  let r := result_named "odd" job_odd_percentile in
  (TestResult.FioJob r = Some job_odd_percentile /\
   TestResult.Status r = PASSED /\
   (0 < size (readPercentiles job_odd_percentile))%nat) /\
  In (Render (mkTable [ "Percentile"; "Latency (μs)" ] [ 40; 66 ] []))
     (displayTestResult r).
Proof.
  cbv zeta.
  assert (H1 : TestResult.FioJob (result_named "odd" job_odd_percentile)
               = Some job_odd_percentile) by reflexivity.
  assert (H2 : TestResult.Status (result_named "odd" job_odd_percentile) = PASSED)
    by reflexivity.
  assert (H3 : (0 < size (readPercentiles job_odd_percentile))%nat)
    by (vm_compute; lia).
  assert (H4 : forall p, In p percentiles -> readPercentiles job_odd_percentile !! p = None).
  { intros p Hp. unfold percentiles in Hp. cbn [In] in Hp.
    repeat (destruct Hp as [<- | Hp]; [vm_compute; reflexivity|]). destruct Hp. }
  split; [auto|].
  apply (X17_only_foreign_percentiles _ _ H1 H2 H3 H4).
Defined.

(** ** The command line *)


(** ** The shape of the rendered tables *)

Lemma percentileRows_width (m : gmap string float) :
  Forall (fun row => length row = 2%nat) (percentileRows m).
Proof.
  unfold percentileRows. generalize percentiles.
  induction l as [|p l IH]; [constructor|].
  cbn [flat_map]. destruct (m !! p); cbn [app]; [constructor; [reflexivity|]|]; exact IH.
Qed.

Lemma map_rows_width {A} (f : A -> list text) (n : nat) (l : list A) :
  (forall a, length (f a) = n) -> Forall (fun row => length row = n) (map f l).
Proof.
  intros H. induction l as [|a l IH]; cbn [map]; constructor; [apply H | exact IH].
Qed.

Lemma highlightRows_width w :
  Forall (fun row => length row = 3%nat) (highlightRows w).
Proof.
  unfold highlightRows.
  destruct (0 <? TestResult.TotalIOPS (maxIOPS w))%float,
           (0 <? TestResult.TotalBWMBps (maxBW w))%float,
           (TestResult.AvgLatencyUs (minLatency w) <? sentinelLatency)%float;
    cbn [app]; repeat constructor.
Qed.

Ltac tables :=
  repeat match goal with
  | |- Forall _ (_ ++ _) => apply Forall_app; split
  | |- Forall _ (_ :: _) => constructor
  | |- Forall _ [] => constructor
  | |- out_ok (Println _) => exact I
  | |- out_ok (Render _) =>
      split; cbn [header colMinWidths rows length configureTable]
  | |- _ = _ => reflexivity
  | |- Forall _ (percentileRows _) => apply percentileRows_width
  | |- Forall _ (highlightRows _) => apply highlightRows_width
  | |- Forall _ (map _ _) => apply map_rows_width; intros; reflexivity
  end.

(** X19: every table the interactive view renders is well formed, whatever
    the results: it has one minimal width per column and each of its rows has
    exactly one cell per column, in the per-test view as in the summary. *)
Theorem X19_tables_are_well_formed :
  (forall r, Forall out_ok (displayTestResult r)) /\
  (forall results, Forall out_ok (displaySummary results)).
Proof.
  split.
  - intros r. unfold displayTestResult.
    destruct (String.eqb (TestResult.Status r) FAILED).
    + destruct (TestResult.Error r); cbn [app]; tables.
    + destruct (TestResult.FioJob r) as [j|].
      * destruct (0 <? Z.of_nat (size (FioClat.Percentile
                                         (FioIO.Clat (FioJobResult.Read j)))));
          destruct (TestResult.DiskUtil r) as [|d ds];
          unfold latencyRows, latRow; tables.
      * destruct (TestResult.DiskUtil r) as [|d ds]; tables.
  - intros results. unfold displaySummary. tables.
Qed.

(** ** The run as a whole *)

Lemma runTest_identity clk run test fs :
  let r := fst (runTest clk run test fs) in
  TestResult.TestName r = FioTest.Name test /\
  TestResult.Description r = FioTest.Description test /\
  (TestResult.Status r = PASSED \/ TestResult.Status r = FAILED).
Proof.
  cbv zeta.
  destruct (runTest_cases clk run test fs)
    as [(e & ->) | [(-> & _) | (o & job & rest & _ & _ & _ & ->)]];
    cbn [fst]; repeat split; auto.
Qed.

Lemma runLoop_cons w total i test tests results fs :
  runLoop w total i (test :: tests) results fs
  = let r := runTest (fst (at_test w i)) (snd (at_test w i)) test fs in
    let rest := runLoop w total (S i) tests (results ++ [fst r])%list (snd r) in
    ([ Println ("[" ++ Z_to_string (Z.of_nat i + 1) ++ "/"
                ++ Z_to_string (Z.of_nat total) ++ "] Running test: "
                ++ FioTest.Description test)%string;
       Println rule80 ]
     ++ displayTestResult (fst r) ++ [ Println "" ] ++ fst (fst rest),
     snd (fst rest), snd rest)%list.
Proof.
  cbn [runLoop]. cbv zeta.
  destruct (runTest (fst (at_test w i)) (snd (at_test w i)) test fs) as [r fs1].
  cbn [fst snd].
  destruct (runLoop w total (S i) tests (results ++ [r])%list fs1) as [[printed rs] fs2].
  reflexivity.
Qed.

Lemma runLoop_results w total tests : forall i results fs,
  exists rs,
    snd (fst (runLoop w total i tests results fs)) = (results ++ rs)%list /\
    map TestResult.TestName rs = map FioTest.Name tests /\
    map TestResult.Description rs = map FioTest.Description tests /\
    Forall (fun r => TestResult.Status r = PASSED \/ TestResult.Status r = FAILED) rs.
Proof.
  induction tests as [|test tests IH]; intros i results fs.
  - exists []. cbn. rewrite app_nil_r. repeat split. constructor.
  - rewrite runLoop_cons. cbv zeta. cbn [fst snd].
    set (r := runTest (fst (at_test w i)) (snd (at_test w i)) test fs).
    destruct (IH (S i) (results ++ [fst r])%list (snd r)) as (rs & Hrs & Hn & Hd & Hs).
    destruct (runTest_identity (fst (at_test w i)) (snd (at_test w i)) test fs)
      as (Hname & Hdesc & Hstat). fold r in Hname, Hdesc, Hstat.
    exists (fst r :: rs). rewrite Hrs, <- app_assoc. cbn [app map].
    rewrite Hn, Hd, Hname, Hdesc. repeat split. now constructor.
Qed.

(** X20: no failure of a test ends the run.  The loop over the test cases
    adds exactly one result per test, in the order of the tests, each with
    the name and the description of its test and a status that is PASSED or
    FAILED, whatever the tool did at any of them; and the summary that
    follows counts as many results as there are tests. *)
Theorem X20_one_result_per_test w total i tests results fs :
  exists rs,
    snd (fst (runLoop w total i tests results fs)) = (results ++ rs)%list /\
    length rs = length tests /\
    map TestResult.TestName rs = map FioTest.Name tests /\
    map TestResult.Description rs = map FioTest.Description tests /\
    Forall (fun r => TestResult.Status r = PASSED \/ TestResult.Status r = FAILED) rs /\
    passed (summaryCounts rs) + failed (summaryCounts rs) = Z.of_nat (length tests).
Proof.
  destruct (runLoop_results w total tests i results fs) as (rs & Hrs & Hn & Hd & Hs).
  exists rs.
  assert (Hlen : length rs = length tests).
  { apply (f_equal (@length string)) in Hn. now rewrite !length_map in Hn. }
  repeat split; auto.
  unfold summaryCounts.
  destruct (summaryCounts_from rs (mkCounts 0 0 0)) as (Hp & Hf & _ & Hle).
  rewrite Hp, Hf. cbn [passed failed]. lia.
Qed.

(** X21: [main] ends with status 1 exactly when the tool is not installed or
    the test cases cannot be loaded, and then it has run nothing: the file
    system is untouched.  In every other case it ends with status 0, however
    many tests failed and whether or not the report could be written. *)
Theorem X21_main_exit_status w (fs : FS) :
  let code := fst (fst (main w fs)) in
  (code = 0 \/ code = 1) /\
  (code = 1 <-> fio_installed w = false \/ exists e, loaded w = inr e) /\
  (code = 1 -> snd (main w fs) = fs).
Proof.
  cbv zeta. unfold main.
  destruct (fio_installed w); cbn [negb].
  - destruct (loaded w) as [tests | e].
    + destruct (runLoop w (length tests) 0 tests [] fs) as [[printed results] fs1].
      destruct (saveResultsToJSON (write_err w) results
                  ("test_results-" ++ timestamp w ++ ".json") fs1) as [err fs2].
      cbn [fst snd]. split; [now left|]. split; [|discriminate].
      split; [discriminate|]. intros [H | (e & H)]; discriminate.
    + cbn [fst snd]. split; [now right|]. split; [|reflexivity].
      split; [|reflexivity]. intros _. right. now exists e.
  - cbn [fst snd]. split; [now right|]. split; [|reflexivity].
    split; [|reflexivity]. intros _. now left.
Qed.


